(** * system_pyside6: a shallow embedding of [src/system_pyside6.py]

    The module resolves the host layout once (hard-coded per distribution,
    or by asking a pristine host interpreter), locates the package and
    metadata directories of PySide6 and shiboken6 under the resolved roots
    and installs a finder at the head of [sys.meta_path].

    Conventions of the embedding:
    - Python [str] values are [string]; [str.startswith], [str.endswith],
      [str.strip] and [str.split] are written out below;
    - a [pathlib.Path] is a record of its root and its parts, built by the
      parsing rules of [PurePosixPath];
    - the file system is a tree of directories and files, with a current
      directory, together with the OS errors the host answers a [stat], a
      directory listing or an [open] with (permissions, over-long names)
      and its decoding of file contents; [exists], [is_dir], [iterdir]
      and [read_text] are computed on it and raise those errors;
    - the start-up code is a program over one operation, running a
      subprocess; the command lines it runs are read off its execution;
    - a Python exception is a value of [exn]; code that can raise returns
      a [result];
    - what the interpreter supplies ([subprocess.run], [str.strip],
      [ast.literal_eval], [PathFinder.find_spec]) is a variable of the
      section that uses it, so every result holds for all behaviours of
      it. *)

From Stdlib Require Import String Ascii List Arith Lia Bool ZArith.
From Stdlib Require Import Decimal DecimalString.
Import ListNotations.
Set Warnings "-register-all".
Open Scope string_scope.
Open Scope list_scope.

(** ** Python string builtins *)

Module Str.

(** [s.startswith(p)] *)
Definition startswith (s p : string) : bool := String.prefix p s.

(** [s.endswith(suf)]: some tail of [s] is [suf]. *)
Fixpoint endswith (s suf : string) : bool :=
  (s =? suf) ||
  match s with
  | EmptyString => false
  | String _ s' => endswith s' suf
  end.

(** The white space among the ASCII characters: tab, line feed, vertical
    tab, form feed, carriage return, the four separators 28..31 and the
    space. *)
Definition ascii_space (c : ascii) : bool :=
  let n := nat_of_ascii c in
  (Nat.leb 9 n && Nat.leb n 13) || (Nat.leb 28 n && Nat.leb n 32).

Fixpoint ascii_lstrip (s : string) : string :=
  match s with
  | EmptyString => EmptyString
  | String c s' => if ascii_space c then ascii_lstrip s' else s
  end.

Fixpoint ascii_rstrip (s : string) : string :=
  match s with
  | EmptyString => EmptyString
  | String c s' =>
      match ascii_rstrip s' with
      | EmptyString => if ascii_space c then EmptyString else String c EmptyString
      | r => String c r
      end
  end.

(** [s.strip()] for a string [s] of ASCII characters; it is used for the
    sample hosts only, whose output is ASCII. *)
Definition ascii_strip (s : string) : string := ascii_rstrip (ascii_lstrip s).

(** The string of [n] times the character [c]. *)
Fixpoint repeat_char (c : ascii) (n : nat) : string :=
  match n with
  | O => EmptyString
  | S n' => String c (repeat_char c n')
  end.

(** [s.split(sep)] for a one-character separator: never the empty list. *)
Fixpoint split (sep : ascii) (s : string) : list string :=
  match s with
  | EmptyString => [EmptyString]
  | String c s' =>
      if Ascii.eqb c sep then EmptyString :: split sep s'
      else match split sep s' with
           | [] => [String c EmptyString]
           | x :: xs => String c x :: xs
           end
  end.

(** [sep.join(l)] *)
Fixpoint join (sep : string) (l : list string) : string :=
  match l with
  | [] => EmptyString
  | [x] => x
  | x :: xs => x ++ sep ++ join sep xs
  end.

(** [s[-1:]] as an optional character. *)
Fixpoint last_char (s : string) : option ascii :=
  match s with
  | EmptyString => None
  | String c EmptyString => Some c
  | String _ s' => last_char s'
  end.

(** Every way of cutting [s] in two, shortest head first. *)
Fixpoint splits (s : string) : list (string * string) :=
  (EmptyString, s) ::
  match s with
  | EmptyString => []
  | String c s' => map (fun ab => (String c (fst ab), snd ab)) (splits s')
  end.

(** [str(n)] for a non-negative [int]. *)
Definition of_nat (n : nat) : string := NilEmpty.string_of_uint (Nat.to_uint n).

End Str.

(** ** Python values and exceptions *)

(** The values [ast.literal_eval] returns, as far as the module can tell
    them apart: it iterates over the value and hands each item to [Path]. *)
Inductive pyobj : Type :=
| PyNone
| PyBool (b : bool)
| PyInt (z : Z)
| PyStr (s : string)
| PyList (items : list pyobj)
| PyTuple (items : list pyobj).

(** The Python list of the strings [l]. *)
Definition py_str_list (l : list string) : pyobj := PyList (map PyStr l).

Definition is_py_list (o : pyobj) : bool :=
  match o with PyList _ => true | _ => false end.

Inductive exn : Type :=
| CalledProcessError (returncode : Z) (cmd : list string)
| SyntaxError
| ValueError
| TypeError
| FileNotFoundError
| NotADirectoryError
| IsADirectoryError
| PermissionError
| OSError (errno : Z)
| UnicodeDecodeError
| ImportError (msg : string).

Inductive result (A : Type) : Type :=
| Ok (a : A)
| Raise (e : exn).
Arguments Ok {A} a.
Arguments Raise {A} e.

Definition bind {A B} (r : result A) (k : A -> result B) : result B :=
  match r with
  | Ok a => k a
  | Raise e => Raise e
  end.

Notation "x <- r ;; k" := (bind r (fun x => k))
  (at level 61, r at next level, right associativity).

(** [iter(o)]: lists and tuples give their items, a string its characters,
    anything else is not iterable. *)
Definition py_iter (o : pyobj) : result (list pyobj) :=
  match o with
  | PyList l | PyTuple l => Ok l
  | PyStr s => Ok (map (fun c => PyStr (String c EmptyString)) (list_ascii_of_string s))
  | _ => Raise TypeError
  end.

(** ** pathlib: pure paths *)

(** A POSIX pure path after parsing: [root] is the empty string, one slash
    or two slashes, [parts] are the components without the root. *)
Record Path : Type := { root : string; parts : list string }.

(** [posixpath.splitroot]: exactly two leading slashes are kept as a root
    of their own, one or more than two make the root a single slash. *)
Definition splitroot (p : string) : string * string :=
  match p with
  | String "/" (String "/" (String "/" _ as rel)) => ("/", String "/" rel)
  | String "/" (String "/" rel) => ("//", rel)
  | String "/" rel => ("/", rel)
  | _ => ("", p)
  end.

Definition is_part (x : string) : bool := negb (x =? "") && negb (x =? ".").

(** [Path(s)] for a string [s]: empty components and single dots vanish. *)
Definition mkpath (s : string) : Path :=
  let (r, rel) := splitroot s in
  {| root := r; parts := filter is_part (Str.split "/" rel) |}.

(** [p / q] for two paths: a rooted right operand replaces the left one. *)
Definition joinpath (p q : Path) : Path :=
  if root q =? "" then {| root := root p; parts := parts p ++ parts q |} else q.

(** [p / key] for a string [key]. *)
Definition truediv (p : Path) (key : string) : Path := joinpath p (mkpath key).

Declare Scope path_scope.
Delimit Scope path_scope with path.
Notation "p / key" := (truediv p key) : path_scope.

(** [p.parent]: a path without parts is its own parent. *)
Definition parent (p : Path) : Path :=
  match parts p with
  | [] => p
  | _ => {| root := root p; parts := removelast (parts p) |}
  end.

(** [p.name]: the last part, or the empty string. *)
Definition name (p : Path) : string := last (parts p) "".

(** [str(p)] *)
Definition path_str (p : Path) : string :=
  match root p ++ Str.join "/" (parts p) with
  | EmptyString => "."
  | s => s
  end.

(** The child [p / n] that [iterdir] builds for a listed name [n]. *)
Definition child (p : Path) (n : string) : Path :=
  {| root := root p; parts := parts p ++ [n] |}.

(** ** The file system *)

(** A file holds the bytes written to it. *)
Inductive node : Type :=
| File (data : string)
| Dir (entries : list (string * node)).

(** The tree under the root directory, the current directory (the parts
    of its absolute path), the OS error, if any, with which the host
    answers [os.stat], [os.scandir] and [open] on a path (any error other
    than the missing-file ones, which the tree gives), and what decoding a
    file's bytes as UTF-8 text with universal newlines gives. *)
Record filesystem : Type := {
  fs_root : node;
  cwd : list string;
  stat_error : Path -> option exn;
  scandir_error : Path -> option exn;
  open_error : Path -> option exn;
  decode : string -> result string
}.

Fixpoint find_entry (n : string) (entries : list (string * node)) : option node :=
  match entries with
  | [] => None
  | (m, x) :: rest => if m =? n then Some x else find_entry n rest
  end.

(** Path resolution without symbolic links: [stack] holds the directories
    above [cur]. A component is looked up in a directory only; two dots go
    one directory up and stay at the root. *)
Fixpoint walk (stack : list node) (cur : node) (ps : list string)
  : option (list node * node) :=
  match ps with
  | [] => Some (stack, cur)
  | c :: rest =>
      match cur with
      | File _ => None
      | Dir entries =>
          if c =? ".." then
            match stack with
            | [] => walk [] cur rest
            | up :: stack' => walk stack' up rest
            end
          else
            match find_entry c entries with
            | Some x => walk (cur :: stack) x rest
            | None => None
            end
      end
  end.

Section FileSystem.

Variable fs : filesystem.

Definition absolute_parts (p : Path) : list string :=
  if root p =? "" then cwd fs ++ parts p else parts p.

Definition resolve (p : Path) : option node :=
  option_map snd (walk [] (fs_root fs) (absolute_parts p)).

(** [p.exists()]: a missing file is [False]; any other error of [stat]
    is raised. *)
Definition exists_ (p : Path) : result bool :=
  match stat_error fs p with
  | Some e => Raise e
  | None => Ok (match resolve p with Some _ => true | None => false end)
  end.

(** [p.is_dir()], with the same errors. *)
Definition is_dir (p : Path) : result bool :=
  match stat_error fs p with
  | Some e => Raise e
  | None => Ok (match resolve p with Some (Dir _) => true | _ => false end)
  end.

(** [p.iterdir()], consumed: the children in listing order. *)
Definition iterdir (p : Path) : result (list Path) :=
  match scandir_error fs p with
  | Some e => Raise e
  | None =>
      match resolve p with
      | None => Raise FileNotFoundError
      | Some (File _) => Raise NotADirectoryError
      | Some (Dir entries) => Ok (map (fun e => child p (fst e)) entries)
      end
  end.

(** [p.read_text(encoding="utf-8")] *)
Definition read_text (p : Path) : result string :=
  match open_error fs p with
  | Some e => Raise e
  | None =>
      match resolve p with
      | None => Raise FileNotFoundError
      | Some (Dir _) => Raise IsADirectoryError
      | Some (File data) => decode fs data
      end
  end.

End FileSystem.

(** ** Programs that run subprocesses *)

Record CompletedProcess : Type := { returncode : Z; stdout : string }.

(** The start-up code: it returns, raises, or runs a command line with
    [subprocess.run(argv, capture_output=True, text=True)] and goes on
    with what that gives. *)
Inductive prog (A : Type) : Type :=
| Ret (a : A)
| Throw (e : exn)
| Run (argv : list string) (k : result CompletedProcess -> prog A).
Arguments Ret {A} a.
Arguments Throw {A} e.
Arguments Run {A} argv k.

Fixpoint pbind {A B : Type} (p : prog A) (f : A -> prog B) : prog B :=
  match p with
  | Ret a => f a
  | Throw e => Throw e
  | Run argv k => Run argv (fun r => pbind (k r) f)
  end.

Definition lift {A : Type} (r : result A) : prog A :=
  match r with
  | Ok a => Ret a
  | Raise e => Throw e
  end.

(** What an execution did: the command lines it ran, in order, and its
    value or the exception it raised. *)
Record traced (A : Type) : Type := { calls : list (list string); outcome : result A }.
Arguments calls {A} t.
Arguments outcome {A} t.

(** Execution on a host that answers each command line with
    [subprocess_run]. *)
Fixpoint exec {A : Type} (subprocess_run : list string -> result CompletedProcess)
    (p : prog A) : traced A :=
  match p with
  | Ret a => {| calls := []; outcome := Ok a |}
  | Throw e => {| calls := []; outcome := Raise e |}
  | Run argv k =>
      let t := exec subprocess_run (k (subprocess_run argv)) in
      {| calls := argv :: calls t; outcome := outcome t |}
  end.

(** ** Layout resolution (module level, lines 10-53) *)

(** The two module globals. *)
Record SearchRoots : Type := { PACKAGE_DIR : pyobj; DIST_INFO_DIR : pyobj }.

Section Layout.

(** [str.strip] and [ast.literal_eval]. *)
Variable strip : string -> string.
Variable literal_eval : string -> result pyobj.

Definition get_system_site_argv : list string :=
  ["env"; "-i"; "python3"; "-c"; "import site; print(site.getsitepackages())"].

(** [subprocess.run(..., check=True)]: a status other than zero raises. *)
Definition run_checked (argv : list string) : prog CompletedProcess :=
  Run argv (fun r =>
    match r with
    | Raise e => Throw e
    | Ok cp =>
        if (returncode cp =? 0)%Z then Ret cp
        else Throw (CalledProcessError (returncode cp) argv)
    end).

Definition get_system_site : prog pyobj :=
  pbind (run_checked get_system_site_argv)
        (fun cp => lift (literal_eval (strip (stdout cp)))).

(** [f"{sys.version_info.major}.{sys.version_info.minor}"] *)
Definition VERS (major minor : nat) : string :=
  Str.of_nat major ++ "." ++ Str.of_nat minor.

(** The [if DISTRO == ...] chain for the identifier [DISTRO]. *)
Definition resolve_layout (DISTRO : string) (major minor : nat) : prog SearchRoots :=
  if DISTRO =? "fedora" then
    Ret {| PACKAGE_DIR := PyList [PyStr ("/usr/lib/python" ++ VERS major minor ++ "/site-packages/")];
           DIST_INFO_DIR := PyList [PyStr ("/usr/lib64/python" ++ VERS major minor ++ "/site-packages/")] |}
  else if DISTRO =? "ubuntu" then
    Ret {| PACKAGE_DIR := PyList [PyStr "/usr/lib/python3/dist-packages/"];
           DIST_INFO_DIR := PyList [PyStr "/usr/lib/python3/dist-packages/"] |}
  else if Str.startswith DISTRO "opensuse" then
    Ret {| PACKAGE_DIR := PyList [PyStr ("/usr/lib64/python" ++ VERS major minor ++ "/site-packages/")];
           DIST_INFO_DIR := PyList [PyStr ("/usr/lib64/python" ++ VERS major minor ++ "/site-packages/")] |}
  else
    pbind get_system_site (fun v => Ret {| PACKAGE_DIR := v; DIST_INFO_DIR := v |}).

End Layout.

(** ** The locator (lines 56-101) *)

Section Locator.

Variable fs : filesystem.

(** [path.exists() and path.is_dir()]: the second test is made only when
    the first holds. *)
Definition exists_and_is_dir (path : Path) : result bool :=
  e <- exists_ fs path ;;
  if e then is_dir fs path else Ok false.

(** The body of [for directory in PACKAGE_DIR]; [paths] is the list built
    so far. [Path(directory)] needs a string. *)
Fixpoint locate_package_loop (package_name : string) (dirs : list pyobj)
    (paths : list Path) : result (list Path) :=
  match dirs with
  | [] => Ok paths
  | PyStr directory :: rest =>
      let path := (mkpath directory / package_name)%path in
      hit <- exists_and_is_dir path ;;
      if hit
      then locate_package_loop package_name rest (paths ++ [path])
      else locate_package_loop package_name rest paths
  | _ :: _ => Raise TypeError
  end.

Definition locate_package (PACKAGE_DIR : pyobj) (package_name : string)
  : result (list Path) :=
  dirs <- py_iter PACKAGE_DIR ;;
  locate_package_loop package_name dirs [].

(** The test on [entry.name] of lines 87-97. *)
Definition dist_info_name (pkgname entry_name : string) : bool :=
  (Str.startswith entry_name (pkgname ++ "-")
   && (Str.endswith entry_name ".dist-info" || Str.endswith entry_name ".egg-info"))
  || ((entry_name =? pkgname ++ ".dist-info") || (entry_name =? pkgname ++ ".egg-info")).

(** The condition of lines 86-98: [entry.is_dir()] first, then the name. *)
Definition entry_matches (pkgname : string) (entry : Path) : result bool :=
  d <- is_dir fs entry ;;
  Ok (d && dist_info_name pkgname (name entry)).

(** The inner loop: the first matching entry in listing order. *)
Fixpoint scan_entries (pkgname : string) (entries : list Path)
  : result (option Path) :=
  match entries with
  | [] => Ok None
  | entry :: rest =>
      m <- entry_matches pkgname entry ;;
      if m then Ok (Some entry) else scan_entries pkgname rest
  end.

(** The outer loop over [DIST_INFO_DIR]. *)
Fixpoint locate_dist_info_dir_loop (pkgname : string) (dirs : list pyobj)
  : result (option Path) :=
  match dirs with
  | [] => Ok None
  | PyStr directory :: rest =>
      there <- exists_ fs (mkpath directory) ;;
      if negb there
      then locate_dist_info_dir_loop pkgname rest
      else
        entries <- iterdir fs (mkpath directory) ;;
        found <- scan_entries pkgname entries ;;
        match found with
        | Some entry => Ok (Some entry)
        | None => locate_dist_info_dir_loop pkgname rest
        end
  | _ :: _ => Raise TypeError
  end.

Definition locate_dist_info_dir (DIST_INFO_DIR : pyobj) (pkgname : string)
  : result (option Path) :=
  dirs <- py_iter DIST_INFO_DIR ;;
  locate_dist_info_dir_loop pkgname dirs.

(** ** IsolatedDistribution (lines 104-119) *)

Record IsolatedDistribution : Type := { pkgname : string; _dist_info : Path }.

(** [IsolatedDistribution(pkgname)]; a [Path] is always truthy, so
    [not self._dist_info] holds for [None] only. *)
Definition IsolatedDistribution_init (DIST_INFO_DIR : pyobj) (pkgname : string)
  : result IsolatedDistribution :=
  found <- locate_dist_info_dir DIST_INFO_DIR pkgname ;;
  match found with
  | None => Raise (ImportError ("No dist-info found for " ++ pkgname))
  | Some d => Ok {| pkgname := pkgname; _dist_info := d |}
  end.

Definition IsolatedDistribution_read_text (self : IsolatedDistribution)
    (filename : string) : result (option string) :=
  let file := (_dist_info self / filename)%path in
  there <- exists_ fs file ;;
  if there then t <- read_text fs file ;; Ok (Some t)
  else Ok None.

Definition IsolatedDistribution_locate_file (self : IsolatedDistribution)
    (path : string) : Path :=
  (parent (_dist_info self) / path)%path.

End Locator.

(** ** IsolatedPackageFinder (lines 122-158) *)

(** [self.package_dirs]: a [dict] in insertion order. *)
Record IsolatedPackageFinder : Type := { package_dirs : list (string * list Path) }.

(** [DistributionFinder.Context]: [context.name] is [None] unless a name
    was passed. *)
Record Context : Type := { context_name : option string }.

(** [k in d] for a [dict] [d]. *)
Definition dict_contains {V : Type} (k : string) (d : list (string * V)) : bool :=
  existsb (fun kv => fst kv =? k) d.

(** What the name [path] is bound to inside [find_spec]: the argument on
    entry, the loop variable of line 129 once the inner loop has run. *)
Inductive path_binding : Type :=
| PathArg (o : pyobj)
| PathLoop (p : Path).

Section Finder.

Variable ModuleSpec : Type.

(** [importlib.machinery.PathFinder.find_spec(fullname, path)] *)
Variable PathFinder_find_spec : string -> list string -> option ModuleSpec.

Variable fs : filesystem.

(** Lines 129-134: returns the spec found, if any, and the binding of
    [path] when the loop is left. *)
Fixpoint find_spec_paths (fullname : string) (path : path_binding)
    (pkg_paths : list Path) : option ModuleSpec * path_binding :=
  match pkg_paths with
  | [] => (None, path)
  | p :: rest =>
      match PathFinder_find_spec fullname [path_str (parent p)] with
      | Some spec => (Some spec, PathLoop p)
      | None => find_spec_paths fullname (PathLoop p) rest
      end
  end.

(** Line 128. *)
Definition watches (fullname pkg : string) : bool :=
  (fullname =? pkg) || Str.startswith fullname (pkg ++ ".").

(** Lines 127-135 over the items of the dictionary. *)
Fixpoint find_spec_items (fullname : string) (path : path_binding)
    (items : list (string * list Path)) : option ModuleSpec :=
  match items with
  | [] => None
  | (pkg, pkg_paths) :: rest =>
      if watches fullname pkg then
        match find_spec_paths fullname path pkg_paths with
        | (Some spec, _) => Some spec
        | (None, path') => find_spec_items fullname path' rest
        end
      else find_spec_items fullname path rest
  end.

Definition find_spec (self : IsolatedPackageFinder) (fullname : string)
    (path target : pyobj) : option ModuleSpec :=
  find_spec_items fullname (PathArg path) (package_dirs self).

(** Lines 137-147, the generator run to its end: the distributions it
    yields, or the exception that ends it. *)
Definition find_distributions (DIST_INFO_DIR : pyobj) (self : IsolatedPackageFinder)
    (context : option Context) : result (list IsolatedDistribution) :=
  let context :=
    match context with
    | None => {| context_name := None |}
    | Some c => c
    end in
  match context_name context with
  | None => Ok []
  | Some n =>
      if n =? "" then Ok []
      else if dict_contains n (package_dirs self)
      then d <- IsolatedDistribution_init fs DIST_INFO_DIR n ;; Ok [d]
      else Ok []
  end.

(** Lines 152-157: the finder the module installs. *)
Definition module_finder (PACKAGE_DIR : pyobj) : result IsolatedPackageFinder :=
  pyside <- locate_package fs PACKAGE_DIR "PySide6" ;;
  shiboken <- locate_package fs PACKAGE_DIR "shiboken6" ;;
  Ok {| package_dirs := [("PySide6", pyside); ("shiboken6", shiboken)] |}.

End Finder.

(** The whole module body: the layout, then the finder put at the head of
    [sys.meta_path] (of which only this entry is kept here). *)
Definition module_init (strip : string -> string)
    (literal_eval : string -> result pyobj) (fs : filesystem)
    (DISTRO : string) (major minor : nat)
  : prog (SearchRoots * IsolatedPackageFinder) :=
  pbind (resolve_layout strip literal_eval DISTRO major minor) (fun roots =>
  pbind (lift (module_finder fs (PACKAGE_DIR roots))) (fun finder =>
  Ret (roots, finder))).

(** The finder with the two keys of the module and any two directory lists. *)
Definition target_finder (pyside shiboken : list Path) : IsolatedPackageFinder :=
  {| package_dirs := [("PySide6", pyside); ("shiboken6", shiboken)] |}.

(** ** Sample hosts *)

Module Sample.

(** Universal newlines: a carriage return, alone or before a line feed,
    reads as a line feed. *)
Fixpoint universal_newlines (data : string) : string :=
  match data with
  | EmptyString => EmptyString
  | String "013" (String "010" rest as tail) => universal_newlines tail
  | String "013" rest => String "010" (universal_newlines rest)
  | String c rest => String c (universal_newlines rest)
  end.

(** A host without OS errors whose files are ASCII text. *)
Definition quiet (tree : node) (current : list string) : filesystem :=
  {| fs_root := tree; cwd := current;
     stat_error := fun _ => None;
     scandir_error := fun _ => None;
     open_error := fun _ => None;
     decode := fun data => Ok (universal_newlines data) |}.

(** Fedora with Python 3.12: the package under /usr/lib, its metadata under
    /usr/lib64. *)
Definition fedora_tree : node :=
  Dir [("usr",
    Dir [("lib",
           Dir [("python3.12",
             Dir [("site-packages",
               Dir [("PySide6", Dir [("__init__.py", File ""); ("QtCore.abi3.so", File "")])])])]);
         ("lib64",
           Dir [("python3.12",
             Dir [("site-packages",
               Dir [("README", File "notes");
                    ("PySide6-6.7.0.dist-info",
                       Dir [("METADATA", File "Name: PySide6"); ("RECORD", File "")])])])])])].

Definition fedora : filesystem := quiet fedora_tree ["home"].

Definition fedora_package_dir : pyobj := PyList [PyStr "/usr/lib/python3.12/site-packages/"].
Definition fedora_dist_info_dir : pyobj := PyList [PyStr "/usr/lib64/python3.12/site-packages/"].

(** Where PySide6 and its metadata are on that host. *)
Definition pyside_dir : Path :=
  {| root := "/"; parts := ["usr"; "lib"; "python3.12"; "site-packages"; "PySide6"] |}.

Definition pyside_dist_info : Path :=
  {| root := "/";
     parts := ["usr"; "lib64"; "python3.12"; "site-packages"; "PySide6-6.7.0.dist-info"] |}.

Definition pyside_dist : IsolatedDistribution :=
  {| pkgname := "PySide6"; _dist_info := pyside_dist_info |}.

(** The same tree on a host that refuses a path with a component of more
    than 255 bytes: [stat], [scandir] and [open] fail with errno 36. *)
Definition name_too_long (p : Path) : option exn :=
  if existsb (fun c => Nat.ltb 255 (String.length c)) (parts p)
  then Some (OSError 36) else None.

Definition limited : filesystem :=
  {| fs_root := fedora_tree; cwd := ["home"];
     stat_error := name_too_long;
     scandir_error := name_too_long;
     open_error := name_too_long;
     decode := fun data => Ok (universal_newlines data) |}.

(** A name of 256 bytes. *)
Definition long_name : string := Str.repeat_char "a" 256.

(** A host on which the fallback must not be needed: every call fails. *)
Definition no_subprocess (argv : list string) : result CompletedProcess :=
  Raise FileNotFoundError.
Definition no_literal (s : string) : result pyobj := Raise SyntaxError.

(** A host whose pristine interpreter prints one site directory. *)
Definition opt_run (argv : list string) : result CompletedProcess :=
  Ok {| returncode := 0; stdout := "['/opt/python/site-packages']
" |}.
Definition opt_literal (s : string) : result pyobj :=
  if s =? "['/opt/python/site-packages']"
  then Ok (PyList [PyStr "/opt/python/site-packages"])
  else Raise SyntaxError.

(** A host whose [python3] prints a tuple; the evaluator is
    [ast.literal_eval] on the one string it is asked about. *)
Definition tuple_run (argv : list string) : result CompletedProcess :=
  Ok {| returncode := 0; stdout := "('/opt/python/site-packages',)
" |}.
Definition tuple_literal (s : string) : result pyobj :=
  if s =? "('/opt/python/site-packages',)"
  then Ok (PyTuple [PyStr "/opt/python/site-packages"])
  else Raise SyntaxError.

(** /srv/meta is a directory with one metadata directory whose package
    name ends in ".dist"; /srv/plain is a regular file. *)
Definition srv : filesystem :=
  quiet
    (Dir [("srv",
       Dir [("meta", Dir [("foo.dist-info", Dir [("METADATA", File "Name: foo.dist")])]);
            ("plain", File "not a directory")])])
    [].

(** Any importable name is found under /usr/lib/python3.12/site-packages. *)
Definition fedora_path_finder (fullname : string) (path : list string) : option string :=
  match path with
  | [dir] => if dir =? "/usr/lib/python3.12/site-packages"
             then Some (dir ++ "/" ++ fullname)%string else None
  | _ => None
  end.

(** A path finder that answers for every search path; it agrees with
    [fedora_path_finder] on the Fedora site directory only. *)
Definition eager_path_finder (fullname : string) (path : list string) : option string :=
  match path with
  | [dir] => if dir =? "/usr/lib/python3.12/site-packages"
             then Some (dir ++ "/" ++ fullname)%string else Some "elsewhere"
  | _ => Some "elsewhere"
  end.

End Sample.

(** ** The words of the specification *)

(** The four accepted names of a metadata directory of the package [X]:
    [X.dist-info], [X.egg-info], [X-<anything>.dist-info] and
    [X-<anything>.egg-info]. *)
Definition accepted_form (X n : string) : Prop :=
  (n = X ++ ".dist-info" \/ n = X ++ ".egg-info" \/
   (exists v, n = X ++ "-" ++ v ++ ".dist-info") \/
   (exists v, n = X ++ "-" ++ v ++ ".egg-info"))%string.

(** The enumerated distributions. *)
Definition known_distro (d : string) : Prop :=
  d = "fedora" \/ d = "ubuntu" \/ Str.startswith d "opensuse" = true.

(** What is in the tree at a path. *)
Definition tree_exists (fs : filesystem) (p : Path) : bool :=
  match resolve fs p with Some _ => true | None => false end.

Definition tree_is_dir (fs : filesystem) (p : Path) : bool :=
  match resolve fs p with Some (Dir _) => true | _ => false end.

(** No [stat], no directory listing, no [open] fails with an OS error. *)
Definition stat_ok (fs : filesystem) : Prop := forall p, stat_error fs p = None.
Definition scandir_ok (fs : filesystem) : Prop := forall p, scandir_error fs p = None.
Definition open_ok (fs : filesystem) : Prop := forall p, open_error fs p = None.




(** The result of trying the candidate directories [ps] in order. *)
Definition first_spec {ModuleSpec : Type}
    (PathFinder_find_spec : string -> list string -> option ModuleSpec)
    (fullname : string) (ps : list Path) (r : option ModuleSpec) : Prop :=
  match r with
  | Some spec =>
      exists pre p post, ps = pre ++ p :: post /\
        (forall q, In q pre -> PathFinder_find_spec fullname [path_str (parent q)] = None) /\
        PathFinder_find_spec fullname [path_str (parent p)] = Some spec
  | None =>
      forall q, In q ps -> PathFinder_find_spec fullname [path_str (parent q)] = None
  end.

(** ** Notions used to state further properties *)


(** The first value among optional values. *)
Fixpoint first_some {A : Type} (l : list (option A)) : option A :=
  match l with
  | [] => None
  | Some a :: _ => Some a
  | None :: rest => first_some rest
  end.

(** The directories of every key of the dictionary that watches
    [fullname], in dictionary order. *)
Definition candidates (self : IsolatedPackageFinder) (fullname : string) : list Path :=
  flat_map snd (filter (fun kv => watches fullname (fst kv)) (package_dirs self)).

(** The query [find_spec] makes for one candidate directory. *)
Definition query {ModuleSpec : Type}
    (PF : string -> list string -> option ModuleSpec)
    (fullname : string) (p : Path) : option ModuleSpec :=
  PF fullname [path_str (parent p)].




(** * Properties *)

(** ** Strings *)

Module StrFacts.

Local Open Scope string_scope.

Lemma append_nil_r (s : string) : s ++ "" = s.
Proof. induction s as [|c s IH]; simpl; [reflexivity | now rewrite IH]. Qed.

Lemma append_assoc (a b c : string) : (a ++ b) ++ c = a ++ (b ++ c).
Proof. induction a as [|x a IH]; simpl; [reflexivity | now rewrite IH]. Qed.

Lemma length_append (a b : string) :
  String.length (a ++ b) = String.length a + String.length b.
Proof. induction a as [|x a IH]; simpl; [reflexivity | now rewrite IH]. Qed.

Lemma append_inv_head (x a b : string) : x ++ a = x ++ b -> a = b.
Proof.
  induction x as [|c x IH]; simpl; intros H; [exact H|].
  injection H as H. auto.
Qed.

Lemma eqb_append_head (x a b : string) : (x ++ a =? x ++ b) = (a =? b).
Proof.
  destruct (String.eqb_spec a b) as [->|Hne].
  - apply String.eqb_refl.
  - apply String.eqb_neq. intros H. apply Hne. eapply append_inv_head; eauto.
Qed.

(** Two ways of cutting the same string: one cut lies before the other. *)
Lemma append_eq_append (a b c d : string) :
  a ++ b = c ++ d ->
  (exists m, a = c ++ m /\ d = m ++ b) \/ (exists m, c = a ++ m /\ b = m ++ d).
Proof.
  revert c. induction a as [|x a IH]; intros c H.
  - right. exists c. simpl in *. auto.
  - destruct c as [|y c].
    + left. exists (String x a). simpl in *. auto.
    + simpl in H. injection H as -> H.
      destruct (IH _ H) as [[m [-> ->]]|[m [-> ->]]].
      * left. exists m. auto.
      * right. exists m. auto.
Qed.

Lemma startswith_iff (s p : string) :
  Str.startswith s p = true <-> exists r, s = p ++ r.
Proof.
  unfold Str.startswith. revert s. induction p as [|c p IH]; intros s.
  - split; [intros _; exists s; reflexivity | intros _; destruct s; reflexivity].
  - destruct s as [|d s]; simpl.
    + split; [discriminate | intros [r H]; discriminate].
    + destruct (Ascii.ascii_dec c d) as [->|Hne].
      * rewrite IH. split; intros [r H]; exists r; [now rewrite H | now injection H].
      * split; [discriminate | intros [r H]; injection H as H1 H2; congruence].
Qed.

Lemma endswith_iff (s suf : string) :
  Str.endswith s suf = true <-> exists pre, s = pre ++ suf.
Proof.
  induction s as [|c s IH]; cbn [Str.endswith].
  - rewrite orb_false_r, String.eqb_eq. split.
    + intros H. exists "". now subst.
    + intros [pre H]. destruct pre; simpl in H; [now subst | discriminate].
  - rewrite orb_true_iff, IH, String.eqb_eq. split.
    + intros [H|[pre H]]; [exists ""; now subst | exists (String c pre); now subst].
    + intros [[|x pre] H]; simpl in H; [now left | right].
      injection H as -> H. now exists pre.
Qed.

Lemma startswith_append_head (x a b : string) :
  Str.startswith (x ++ a) (x ++ b) = Str.startswith a b.
Proof.
  unfold Str.startswith. induction x as [|c x IH]; [reflexivity|].
  simpl. destruct (Ascii.ascii_dec c c); [exact IH | congruence].
Qed.

Lemma last_char_append (a : string) (c : ascii) (b : string) :
  Str.last_char (a ++ String c b) = Str.last_char (String c b).
Proof.
  induction a as [|x a IH]; [reflexivity|].
  simpl append. cbn [Str.last_char]. rewrite IH.
  destruct (a ++ String c b) eqn:E; [destruct a; discriminate | reflexivity].
Qed.

Lemma append_inv_last (a b : string) (c : ascii) :
  a ++ String c "" = b ++ String c "" -> a = b.
Proof.
  revert b. induction a as [|x a IH]; intros [|y b] H; simpl in H.
  - reflexivity.
  - injection H as _ H. destruct b; discriminate.
  - injection H as _ H. destruct a; discriminate.
  - injection H as -> H. f_equal. auto.
Qed.

Lemma splits_complete (s m r : string) : s = m ++ r -> In (m, r) (Str.splits s).
Proof.
  revert s. induction m as [|c m IH]; intros s ->; simpl append.
  - destruct r; simpl; auto.
  - cbn [Str.splits]. right.
    apply (in_map (fun ab => (String c (fst ab), snd ab)) _ (m, r)). auto.
Qed.

End StrFacts.

(** ** The name test of [locate_dist_info_dir] *)

Module DistInfoName.

Import StrFacts.
Local Open Scope string_scope.

(** Each of the four accepted forms passes the test. *)
Lemma accepted_form_matches (X n : string) :
  accepted_form X n -> dist_info_name X n = true.
Proof.
  unfold dist_info_name.
  intros [->|[->|[[v ->]|[v ->]]]].
  - rewrite String.eqb_refl. apply orb_true_iff. right. reflexivity.
  - rewrite String.eqb_refl. apply orb_true_iff. right. apply orb_true_r.
  - apply orb_true_iff. left. apply andb_true_iff. split.
    + apply (proj2 (startswith_iff _ _)). exists (v ++ ".dist-info"). now rewrite append_assoc.
    + apply orb_true_iff. left. apply (proj2 (endswith_iff _ _)). exists (X ++ "-" ++ v).
      now rewrite !append_assoc.
  - apply orb_true_iff. left. apply andb_true_iff. split.
    + apply (proj2 (startswith_iff _ _)). exists (v ++ ".egg-info"). now rewrite append_assoc.
    + apply orb_true_iff. right. apply (proj2 (endswith_iff _ _)). exists (X ++ "-" ++ v).
      now rewrite !append_assoc.
Qed.

(** A name that starts with [X-] and ends with the concrete suffix
    [stem-info]: either the two do not overlap, or [X] itself ends with
    [stem] and the name is [X-info]. *)
Ltac overlap_cases H1 H2 :=
  apply splits_complete in H2; simpl in H2;
  repeat (destruct H2 as [H2|H2]; [injection H2 as <- <-|]); try contradiction;
  try (apply (f_equal Str.last_char) in H1;
       rewrite !last_char_append in H1; discriminate H1).

Lemma dash_overlap_dist (X pre m r : string) :
  X ++ "-" = pre ++ m -> ".dist-info" = m ++ r ->
  (m = "" /\ r = ".dist-info") \/ (r = "info" /\ X = pre ++ ".dist").
Proof.
  intros H1 H2. overlap_cases H1 H2.
  - left. auto.
  - right. split; [reflexivity|].
    apply (append_inv_last _ _ "-"). rewrite H1. now rewrite append_assoc.
Qed.

Lemma dash_overlap_egg (X pre m r : string) :
  X ++ "-" = pre ++ m -> ".egg-info" = m ++ r ->
  (m = "" /\ r = ".egg-info") \/ (r = "info" /\ X = pre ++ ".egg").
Proof.
  intros H1 H2. overlap_cases H1 H2.
  - left. auto.
  - right. split; [reflexivity|].
    apply (append_inv_last _ _ "-"). rewrite H1. now rewrite append_assoc.
Qed.

(** What the test accepts: the four forms, and [X-info] when [X] ends
    with ".dist" or ".egg". *)
Lemma dist_info_name_inv (X n : string) :
  dist_info_name X n = true ->
  accepted_form X n \/
  (n = X ++ "-info" /\ (Str.endswith X ".dist" = true \/ Str.endswith X ".egg" = true)).
Proof.
  unfold dist_info_name. intros H.
  rewrite !orb_true_iff, andb_true_iff, orb_true_iff in H.
  rewrite !String.eqb_eq, startswith_iff, !endswith_iff in H.
  destruct H as [[[r Hr] [[pre Hp]|[pre Hp]]]| [-> | ->]].
  - rewrite Hr in Hp.
    destruct (append_eq_append _ _ _ _ Hp) as [[m [H1 H2]]|[m [-> ->]]].
    + destruct (dash_overlap_dist _ _ _ _ H1 H2) as [[-> ->]|[-> ->]].
      * left. right. right. left. exists "". subst n. now rewrite append_assoc.
      * right. split.
        -- subst n. now rewrite append_assoc.
        -- left. apply (proj2 (endswith_iff _ _)). now exists pre.
    + left. right. right. left. exists m. subst n. now rewrite append_assoc.
  - rewrite Hr in Hp.
    destruct (append_eq_append _ _ _ _ Hp) as [[m [H1 H2]]|[m [-> ->]]].
    + destruct (dash_overlap_egg _ _ _ _ H1 H2) as [[-> ->]|[-> ->]].
      * left. right. right. right. exists "". subst n. now rewrite append_assoc.
      * right. split.
        -- subst n. now rewrite append_assoc.
        -- right. apply (proj2 (endswith_iff _ _)). now exists pre.
    + left. right. right. right. exists m. subst n. now rewrite append_assoc.
  - left. left. reflexivity.
  - left. right. left. reflexivity.
Qed.

(** For a package name that ends neither with ".dist" nor with ".egg"
    the test accepts the four forms and nothing else. *)
Lemma dist_info_name_iff (X n : string) :
  Str.endswith X ".dist" = false -> Str.endswith X ".egg" = false ->
  (dist_info_name X n = true <-> accepted_form X n).
Proof.
  intros Hd He. split; [|apply accepted_form_matches].
  intros H. destruct (dist_info_name_inv _ _ H) as [Ha|[_ [Hx|Hx]]];
    [exact Ha | congruence | congruence].
Qed.

(** No accidental prefix match: [Xtra.dist-info] fails the test for [X]. *)
Lemma sibling_not_matched (X : string) :
  dist_info_name X (X ++ "tra.dist-info") = false.
Proof.
  unfold dist_info_name.
  rewrite startswith_append_head, !eqb_append_head. reflexivity.
Qed.

Lemma dotted_not_accepted : ~ accepted_form "foo.dist" "foo.dist-info".
Proof.
  intros [H|[H|[[v H]|[v H]]]]; try discriminate H;
    simpl in H; injection H as H;
    apply splits_complete in H; simpl in H;
    repeat (destruct H as [H|H]; [discriminate H|]); contradiction.
Qed.

End DistInfoName.

(** ** Path resolution and the four queries *)

Section FileSystemFacts.

Variable fs : filesystem.




Lemma tree_is_dir_exists (p : Path) :
  tree_is_dir fs p = true -> tree_exists fs p = true.
Proof.
  unfold tree_is_dir, tree_exists. now destruct (resolve fs p) as [[|]|].
Qed.

(** What the queries return when they return. *)
Lemma exists_ok (p : Path) (b : bool) :
  exists_ fs p = Ok b -> stat_error fs p = None /\ b = tree_exists fs p.
Proof.
  unfold exists_, tree_exists. destruct (stat_error fs p); [discriminate|].
  intros [= <-]. now split.
Qed.

Lemma is_dir_ok (p : Path) (b : bool) :
  is_dir fs p = Ok b -> stat_error fs p = None /\ b = tree_is_dir fs p.
Proof.
  unfold is_dir, tree_is_dir. destruct (stat_error fs p); [discriminate|].
  intros [= <-]. now split.
Qed.

Lemma iterdir_ok (p : Path) (l : list Path) :
  iterdir fs p = Ok l ->
  exists entries, resolve fs p = Some (Dir entries)
                  /\ l = map (fun e => child p (fst e)) entries.
Proof.
  unfold iterdir. destruct (scandir_error fs p); [discriminate|].
  destruct (resolve fs p) as [[t|es]|]; try discriminate.
  intros [= <-]. now exists es.
Qed.

(** Without OS errors the queries read the tree. *)
Lemma exists_quiet (p : Path) :
  stat_error fs p = None -> exists_ fs p = Ok (tree_exists fs p).
Proof. unfold exists_, tree_exists. now intros ->. Qed.

Lemma is_dir_quiet (p : Path) :
  stat_error fs p = None -> is_dir fs p = Ok (tree_is_dir fs p).
Proof. unfold is_dir, tree_is_dir. now intros ->. Qed.



Lemma parent_child (p : Path) (n : string) : parent (child p n) = p.
Proof.
  unfold parent, child. simpl.
  destruct (parts p ++ [n]) as [|x l] eqn:E.
  - now destruct (parts p).
  - rewrite <- E, removelast_last. now destruct p.
Qed.


(** A listed entry is a child of the listed directory, which is a
    directory. *)
Lemma iterdir_child (p e : Path) (l : list Path) :
  iterdir fs p = Ok l -> In e l ->
  tree_is_dir fs p = true /\ parent e = p /\ parts e <> [].
Proof.
  intros Hl Hin. destruct (iterdir_ok _ _ Hl) as [es [Hr ->]].
  apply in_map_iff in Hin as [x [<- _]].
  unfold tree_is_dir. rewrite Hr. repeat split; [apply parent_child|].
  simpl. now destruct (parts p).
Qed.

End FileSystemFacts.

(** ** The locator *)

Section LocatorFacts.

Variable fs : filesystem.


Lemma entry_matches_true (X : string) (e : Path) :
  entry_matches fs X e = Ok true <->
  is_dir fs e = Ok true /\ dist_info_name X (name e) = true.
Proof.
  unfold entry_matches. destruct (is_dir fs e) as [[|]|x]; simpl; split;
    try (intros [= H]; now split); try (intros [H _]; discriminate H);
    try discriminate.
  - intros [_ ->]. reflexivity.
Qed.




Lemma scan_entries_some (X : string) (es : list Path) (e : Path) :
  scan_entries fs X es = Ok (Some e) ->
  In e es /\ is_dir fs e = Ok true /\ dist_info_name X (name e) = true.
Proof.
  induction es as [|q es IH]; [discriminate|].
  simpl. destruct (entry_matches fs X q) as [[|]|x] eqn:Hq; simpl; try discriminate.
  - intros [= <-]. split; [now left | now apply entry_matches_true].
  - intros H. destruct (IH H) as [Hin Hm]. split; [now right | exact Hm].
Qed.



(** What [locate_dist_info_dir] returns is a child, listed under a root
    that exists, that passes both tests. *)
Lemma locate_dist_info_dir_loop_some (X : string) (dirs : list pyobj) (e : Path) :
  locate_dist_info_dir_loop fs X dirs = Ok (Some e) ->
  exists d l, In (PyStr d) dirs /\ exists_ fs (mkpath d) = Ok true
    /\ iterdir fs (mkpath d) = Ok l /\ In e l
    /\ is_dir fs e = Ok true /\ dist_info_name X (name e) = true.
Proof.
  induction dirs as [|o dirs IH]; [discriminate|].
  assert (Hrest : locate_dist_info_dir_loop fs X dirs = Ok (Some e) ->
    exists d l, In (PyStr d) (o :: dirs) /\ exists_ fs (mkpath d) = Ok true
      /\ iterdir fs (mkpath d) = Ok l /\ In e l
      /\ is_dir fs e = Ok true /\ dist_info_name X (name e) = true).
  { intros H. destruct (IH H) as [d [l [Hin Hd]]]. exists d, l.
    split; [now right | exact Hd]. }
  destruct o as [| | |d| |]; try discriminate.
  simpl. destruct (exists_ fs (mkpath d)) as [[|]|x] eqn:Hex; simpl;
    [|exact Hrest|discriminate].
  destruct (iterdir fs (mkpath d)) as [l|x] eqn:Hl; simpl; [|discriminate].
  destruct (scan_entries fs X l) as [[e'|]|x] eqn:Hsc; simpl;
    [|exact Hrest|discriminate].
  intros [= ->]. destruct (scan_entries_some _ _ _ Hsc) as [Hin Hm].
  exists d, l. split; [now left|]. repeat split; tauto.
Qed.

Lemma locate_dist_info_dir_some (D : pyobj) (X : string) (e : Path) :
  locate_dist_info_dir fs D X = Ok (Some e) ->
  exists dirs d l, py_iter D = Ok dirs /\ In (PyStr d) dirs
    /\ exists_ fs (mkpath d) = Ok true
    /\ iterdir fs (mkpath d) = Ok l /\ In e l
    /\ is_dir fs e = Ok true /\ dist_info_name X (name e) = true.
Proof.
  unfold locate_dist_info_dir. destruct (py_iter D) as [dirs|x]; simpl;
    [|discriminate].
  intros H. destruct (locate_dist_info_dir_loop_some _ _ _ H) as [d [l Hd]].
  now exists dirs, d, l.
Qed.


End LocatorFacts.

Lemma stat_ok_quiet (tree : node) (current : list string) :
  stat_ok (Sample.quiet tree current) /\ scandir_ok (Sample.quiet tree current)
  /\ open_ok (Sample.quiet tree current).
Proof. repeat split. Qed.


(** ** locate_package *)




(** C6. With empty root lists every lookup fails closed: [locate_package]
    returns the empty list and [locate_dist_info_dir] returns [None], for
    every name, and neither raises. *)
Theorem empty_roots_fail_closed (fs : filesystem) (X : string) :
  locate_package fs (py_str_list []) X = Ok []
  /\ locate_dist_info_dir fs (py_str_list []) X = Ok None.
Proof. split; reflexivity. Qed.

(** ** locate_dist_info_dir *)

(** A matching child is a directory whose name passes the test. *)
Lemma entry_matches_iff (fs : filesystem) (X : string) (e : Path) :
  entry_matches fs X e = Ok true <->
  is_dir fs e = Ok true /\ dist_info_name X (name e) = true.
Proof. apply entry_matches_true. Qed.

(** A root whose only child is a directory with one of the four accepted
    names: that child is found. *)
Lemma locate_dist_info_dir_alone (fs : filesystem) (d X : string) (e : Path) :
  exists_ fs (mkpath d) = Ok true ->
  iterdir fs (mkpath d) = Ok [e] ->
  is_dir fs e = Ok true ->
  accepted_form X (name e) ->
  locate_dist_info_dir fs (py_str_list [d]) X = Ok (Some e).
Proof.
  intros Hex Hl Hdir Hform.
  unfold locate_dist_info_dir, py_str_list. simpl.
  rewrite Hex. simpl. rewrite Hl. simpl. unfold entry_matches.
  rewrite Hdir. simpl.
  now rewrite (DistInfoName.accepted_form_matches _ _ Hform).
Qed.

(** A root whose only child is named [Xtra.dist-info]: nothing is found. *)
Lemma locate_dist_info_dir_sibling (fs : filesystem) (d X : string) (e : Path) (b : bool) :
  exists_ fs (mkpath d) = Ok true ->
  iterdir fs (mkpath d) = Ok [e] ->
  is_dir fs e = Ok b ->
  name e = (X ++ "tra.dist-info")%string ->
  locate_dist_info_dir fs (py_str_list [d]) X = Ok None.
Proof.
  intros Hex Hl Hd Hn.
  unfold locate_dist_info_dir, py_str_list. simpl.
  rewrite Hex. simpl. rewrite Hl. simpl. unfold entry_matches.
  rewrite Hd. simpl.
  now rewrite Hn, DistInfoName.sibling_not_matched, andb_false_r.
Qed.

(** For PySide6 and shiboken6, as for every name that ends neither with
    ".dist" nor with ".egg", a child matches exactly when it is a
    directory with one of the four accepted names. *)
Lemma entry_matches_accepted (fs : filesystem) (X : string) (e : Path) :
  Str.endswith X ".dist" = false -> Str.endswith X ".egg" = false ->
  (entry_matches fs X e = Ok true <-> is_dir fs e = Ok true /\ accepted_form X (name e)).
Proof.
  intros Hd He. rewrite entry_matches_iff.
  now rewrite (DistInfoName.dist_info_name_iff _ _ Hd He).
Qed.

(** C3, at the package name "foo.dist". The only child of /srv/meta is the
    directory foo.dist-info, which is none of foo.dist.dist-info,
    foo.dist.egg-info, foo.dist-<anything>.dist-info and
    foo.dist-<anything>.egg-info; [locate_dist_info_dir] returns it all the
    same, because the prefix "foo.dist-" and the suffix ".dist-info" are
    tested separately and overlap. *)
Theorem locate_dist_info_dir_dotted_name :
  let entry := {| root := "/"; parts := ["srv"; "meta"; "foo.dist-info"] |} in
  iterdir Sample.srv (mkpath "/srv/meta") = Ok [entry]
  /\ is_dir Sample.srv entry = Ok true
  /\ ~ accepted_form "foo.dist" (name entry)
  /\ locate_dist_info_dir Sample.srv (py_str_list ["/srv/meta"]) "foo.dist"
     = Ok (Some entry).
Proof.
  repeat split; try reflexivity. exact DistInfoName.dotted_not_accepted.
Qed.




(** ** IsolatedDistribution *)

(** The metadata directory of a distribution that was constructed is a
    listed child that passed the test: it has a last part. *)
Lemma IsolatedDistribution_init_parts (fs : filesystem) (D : pyobj) (X : string)
    (self : IsolatedDistribution) :
  IsolatedDistribution_init fs D X = Ok self ->
  pkgname self = X /\ locate_dist_info_dir fs D X = Ok (Some (_dist_info self))
  /\ parts (_dist_info self) <> [].
Proof.
  unfold IsolatedDistribution_init.
  destruct (locate_dist_info_dir fs D X) as [[e|]|x] eqn:Hl; simpl; try discriminate.
  intros [= <-]. simpl. repeat split.
  destruct (locate_dist_info_dir_some fs D X e Hl)
    as [dirs [d [l [_ [_ [_ [Hit [Hin _]]]]]]]].
  apply (iterdir_child fs _ _ _ Hit Hin).
Qed.

Lemma parent_parts (p : Path) :
  parts (parent p) = removelast (parts p) /\ root (parent p) = root p.
Proof.
  unfold parent. destruct (parts p) as [|x l] eqn:E; simpl; [|now split].
  now rewrite E.
Qed.

(** A file name of 256 bytes names no file, yet [read_text] does not
    return [None]: the [stat] of [file.exists()] fails with errno 36 and
    the error is raised. *)
Lemma read_text_long_name :
  tree_exists Sample.limited (_dist_info Sample.pyside_dist / Sample.long_name)%path
    = false
  /\ IsolatedDistribution_read_text Sample.limited Sample.pyside_dist Sample.long_name
     = Raise (OSError 36)
  /\ IsolatedDistribution_read_text Sample.limited Sample.pyside_dist Sample.long_name
     <> Ok None.
Proof.
  split; [|split]; vm_compute; [reflexivity | reflexivity | discriminate].
Qed.

(** C9, amended. [read_text(filename)] looks at [_dist_info / filename]:
    when [exists()] is true there it returns what reading the file as
    UTF-8 text gives, that is the decoding of its bytes (with universal
    newlines), and when [exists()] is false it returns [None]; an OS
    error of [exists()] or of the read, and a decoding error, are raised.
    [locate_file(path)] joins [path] to the parent of the metadata
    directory: for a relative [path] its parts are those of the metadata
    directory without the last one, followed by those of [path], which is
    not the path under the metadata directory itself; and the metadata
    directory of a constructed distribution always has a last part to
    drop. *)
Theorem isolated_distribution_reads (fs : filesystem) (self : IsolatedDistribution) :
  (forall filename data,
      exists_ fs (_dist_info self / filename)%path = Ok true ->
      open_error fs (_dist_info self / filename)%path = None ->
      resolve fs (_dist_info self / filename)%path = Some (File data) ->
      IsolatedDistribution_read_text fs self filename
      = (t <- decode fs data ;; Ok (Some t)))
  /\ (forall filename,
      exists_ fs (_dist_info self / filename)%path = Ok false ->
      IsolatedDistribution_read_text fs self filename = Ok None)
  /\ (forall filename e,
      exists_ fs (_dist_info self / filename)%path = Raise e ->
      IsolatedDistribution_read_text fs self filename = Raise e)
  /\ (forall filename e,
      exists_ fs (_dist_info self / filename)%path = Ok true ->
      read_text fs (_dist_info self / filename)%path = Raise e ->
      IsolatedDistribution_read_text fs self filename = Raise e)
  /\ (forall path,
      root (mkpath path) = "" ->
      IsolatedDistribution_locate_file self path
      = {| root := root (_dist_info self);
           parts := removelast (parts (_dist_info self)) ++ parts (mkpath path) |})
  /\ (forall path,
      root (mkpath path) = "" -> parts (_dist_info self) <> [] ->
      IsolatedDistribution_locate_file self path <> (_dist_info self / path)%path)
  /\ (forall D X,
      IsolatedDistribution_init fs D X = Ok self -> parts (_dist_info self) <> []).
Proof.
  split; [|split; [|split; [|split; [|split; [|split]]]]].
  - intros filename data He Ho Hr. unfold IsolatedDistribution_read_text, read_text.
    rewrite He. simpl. now rewrite Ho, Hr.
  - intros filename H. unfold IsolatedDistribution_read_text. now rewrite H.
  - intros filename e H. unfold IsolatedDistribution_read_text. now rewrite H.
  - intros filename e He Hr. unfold IsolatedDistribution_read_text.
    rewrite He. simpl. now rewrite Hr.
  - intros path Hrel. unfold IsolatedDistribution_locate_file, truediv, joinpath.
    rewrite Hrel. simpl. destruct (parent_parts (_dist_info self)) as [-> ->].
    reflexivity.
  - intros path Hrel Hparts Heq.
    unfold IsolatedDistribution_locate_file, truediv, joinpath in Heq.
    rewrite Hrel in Heq. simpl in Heq.
    apply (f_equal (fun p => length (parts p))) in Heq. simpl in Heq.
    rewrite !length_app, (proj1 (parent_parts _)) in Heq.
    destruct (parts (_dist_info self)) as [|x l]; [now apply Hparts|].
    rewrite (app_removelast_last x (l := x :: l)) in Heq at 2 by discriminate.
    rewrite length_app in Heq. simpl in Heq. lia.
  - intros D X H. now apply (IsolatedDistribution_init_parts fs D X self).
Qed.

(** ** Layout resolution *)

Lemma known_distro_dec (d : string) :
  known_distro d <->
  ((d =? "fedora") || (d =? "ubuntu") || Str.startswith d "opensuse") = true.
Proof.
  unfold known_distro. rewrite !orb_true_iff, !String.eqb_eq. tauto.
Qed.

(** C8. For "fedora", "ubuntu" and every identifier that starts with
    "opensuse", and for every interpreter version, the layout is a pair of
    non-empty hard-coded lists and no subprocess is run; for "fedora" and
    version 3.12 the package roots are
    ["/usr/lib/python3.12/site-packages/"] and the metadata roots
    ["/usr/lib64/python3.12/site-packages/"]. *)
Theorem resolve_layout_known
    (subprocess_run : list string -> result CompletedProcess)
    (strip : string -> string)
    (literal_eval : string -> result pyobj)
    (distro : string) (major minor : nat) :
  known_distro distro ->
  (exists p d,
      exec subprocess_run (resolve_layout strip literal_eval distro major minor)
      = {| calls := [];
           outcome := Ok {| PACKAGE_DIR := py_str_list p;
                            DIST_INFO_DIR := py_str_list d |} |}
      /\ p <> [] /\ d <> [])
  /\ exec subprocess_run (resolve_layout strip literal_eval "fedora" 3 12)
     = {| calls := [];
          outcome := Ok {| PACKAGE_DIR := py_str_list ["/usr/lib/python3.12/site-packages/"];
                           DIST_INFO_DIR := py_str_list ["/usr/lib64/python3.12/site-packages/"] |} |}.
Proof.
  intros Hk. split; [|reflexivity].
  unfold resolve_layout.
  destruct (distro =? "fedora") eqn:Hf;
    [|destruct (distro =? "ubuntu") eqn:Hu;
      [|destruct (Str.startswith distro "opensuse") eqn:Ho]].
  - eexists [_], [_]. repeat split; discriminate.
  - eexists [_], [_]. repeat split; discriminate.
  - eexists [_], [_]. repeat split; discriminate.
  - apply known_distro_dec in Hk. rewrite Hf, Hu, Ho in Hk. discriminate.
Qed.

(** openSUSE Tumbleweed with Python 3.11, on a host where any subprocess
    would fail. *)
Lemma resolve_layout_known_opensuse :
  known_distro "opensuse-tumbleweed"
  /\ (exists p d,
        exec Sample.no_subprocess
          (resolve_layout Str.ascii_strip Sample.no_literal "opensuse-tumbleweed" 3 11)
        = {| calls := [];
             outcome := Ok {| PACKAGE_DIR := py_str_list p;
                              DIST_INFO_DIR := py_str_list d |} |}
        /\ p <> [] /\ d <> []).
Proof.
  assert (H : known_distro "opensuse-tumbleweed") by (right; right; reflexivity).
  split; [exact H|].
  exact (proj1 (resolve_layout_known Sample.no_subprocess Str.ascii_strip
                  Sample.no_literal "opensuse-tumbleweed" 3 11 H)).
Defined.

(** The output of the subprocess is a tuple, not a list: it is evaluated
    and becomes both root collections, and nothing is raised. *)
Lemma resolve_layout_tuple_output :
  ~ known_distro "arch"
  /\ Sample.tuple_literal (Str.ascii_strip "('/opt/python/site-packages',)
") = Ok (PyTuple [PyStr "/opt/python/site-packages"])
  /\ is_py_list (PyTuple [PyStr "/opt/python/site-packages"]) = false
  /\ exec Sample.tuple_run
       (resolve_layout Str.ascii_strip Sample.tuple_literal "arch" 3 12)
     = {| calls := [get_system_site_argv];
          outcome := Ok {| PACKAGE_DIR := PyTuple [PyStr "/opt/python/site-packages"];
                           DIST_INFO_DIR := PyTuple [PyStr "/opt/python/site-packages"] |} |}.
Proof.
  repeat split; try reflexivity.
  intros H. apply known_distro_dec in H. discriminate H.
Qed.

(** Every identifier outside the table takes the last branch. *)
Lemma resolve_layout_fallback (strip : string -> string)
    (literal_eval : string -> result pyobj) (distro : string) (major minor : nat) :
  ~ known_distro distro ->
  resolve_layout strip literal_eval distro major minor
  = pbind (get_system_site strip literal_eval)
          (fun v => Ret {| PACKAGE_DIR := v; DIST_INFO_DIR := v |}).
Proof.
  intros Hk. unfold resolve_layout.
  destruct (distro =? "fedora") eqn:Hf;
    [|destruct (distro =? "ubuntu") eqn:Hu;
      [|destruct (Str.startswith distro "opensuse") eqn:Ho]];
    try reflexivity;
    exfalso; apply Hk; apply known_distro_dec; rewrite ?Hf, ?Hu, ?Ho;
    now rewrite ?orb_true_r.
Qed.

(** C7, amended. For an identifier outside the enumerated set the
    execution runs exactly one subprocess, the fixed command line of
    [get_system_site], whatever that gives; when it exits with status
    zero and its stripped output evaluates as a literal, that value is,
    unchanged, both the package roots and the metadata roots; when it
    exits with another status [CalledProcessError] is raised, when the
    output does not evaluate the exception of [ast.literal_eval] is
    raised, and when the process cannot be run at all that exception is
    raised. *)
Theorem resolve_layout_unknown
    (subprocess_run : list string -> result CompletedProcess)
    (strip : string -> string)
    (literal_eval : string -> result pyobj)
    (distro : string) (major minor : nat) :
  ~ known_distro distro ->
  let layout :=
    exec subprocess_run (resolve_layout strip literal_eval distro major minor) in
  calls layout = [get_system_site_argv]
  /\ (forall cp v,
        subprocess_run get_system_site_argv = Ok cp -> returncode cp = 0%Z ->
        literal_eval (strip (stdout cp)) = Ok v ->
        outcome layout = Ok {| PACKAGE_DIR := v; DIST_INFO_DIR := v |})
  /\ (forall cp,
        subprocess_run get_system_site_argv = Ok cp -> returncode cp <> 0%Z ->
        outcome layout = Raise (CalledProcessError (returncode cp) get_system_site_argv))
  /\ (forall cp e,
        subprocess_run get_system_site_argv = Ok cp -> returncode cp = 0%Z ->
        literal_eval (strip (stdout cp)) = Raise e ->
        outcome layout = Raise e)
  /\ (forall e,
        subprocess_run get_system_site_argv = Raise e -> outcome layout = Raise e).
Proof.
  intros Hk layout. unfold layout.
  rewrite (resolve_layout_fallback _ _ _ _ _ Hk).
  unfold get_system_site, run_checked. cbn [pbind exec calls outcome].
  split; [|split; [|split; [|split]]].
  - destruct (subprocess_run get_system_site_argv) as [cp|e]; cbn; [|reflexivity].
    destruct (returncode cp =? 0)%Z; cbn; [|reflexivity].
    now destruct (literal_eval (strip (stdout cp))).
  - intros cp v Hrun Hrc Hv. rewrite Hrun. cbn. rewrite Hrc. cbn. now rewrite Hv.
  - intros cp Hrun Hrc. rewrite Hrun. cbn.
    destruct (Z.eqb_spec (returncode cp) 0); [contradiction | reflexivity].
  - intros cp e Hrun Hrc He. rewrite Hrun. cbn. rewrite Hrc. cbn. now rewrite He.
  - intros e Hrun. now rewrite Hrun.
Qed.

(** An unrecognised distribution whose host interpreter prints
    ['/opt/python/site-packages']: one call, and both root lists are that
    single path. *)
Lemma resolve_layout_unknown_opt :
  ~ known_distro "arch"
  /\ calls (exec Sample.opt_run
              (resolve_layout Str.ascii_strip Sample.opt_literal "arch" 3 12))
     = [get_system_site_argv]
  /\ outcome (exec Sample.opt_run
                (resolve_layout Str.ascii_strip Sample.opt_literal "arch" 3 12))
     = Ok {| PACKAGE_DIR := py_str_list ["/opt/python/site-packages"];
             DIST_INFO_DIR := py_str_list ["/opt/python/site-packages"] |}.
Proof.
  assert (H : ~ known_distro "arch")
    by (intros H; apply known_distro_dec in H; discriminate H).
  split; [exact H|].
  destruct (resolve_layout_unknown Sample.opt_run Str.ascii_strip Sample.opt_literal
              "arch" 3 12 H) as [Hcalls [Hok _]].
  split; [exact Hcalls|].
  exact (Hok _ _ eq_refl eq_refl eq_refl).
Defined.

(** ** IsolatedPackageFinder *)

Section FinderFacts.

Variable ModuleSpec : Type.
Variable PathFinder_find_spec : string -> list string -> option ModuleSpec.

Local Abbreviation find_spec_paths := (find_spec_paths ModuleSpec PathFinder_find_spec).
Local Abbreviation find_spec_items := (find_spec_items ModuleSpec PathFinder_find_spec).
Local Abbreviation find_spec := (find_spec ModuleSpec PathFinder_find_spec).

Lemma watches_iff (fullname pkg : string) :
  watches fullname pkg = true <->
  fullname = pkg \/ exists sub, fullname = (pkg ++ "." ++ sub)%string.
Proof.
  unfold watches. rewrite orb_true_iff, String.eqb_eq, StrFacts.startswith_iff.
  split; (intros [H|[sub H]]; [now left | right; exists sub]).
  - now rewrite H, StrFacts.append_assoc.
  - now rewrite H, StrFacts.append_assoc.
Qed.

(** The spec the inner loop returns does not depend on what [path] was
    bound to before the loop. *)
Lemma find_spec_paths_binding (fullname : string) (b1 b2 : path_binding)
    (ps : list Path) :
  fst (find_spec_paths fullname b1 ps) = fst (find_spec_paths fullname b2 ps).
Proof.
  revert b1 b2. induction ps as [|p ps IH]; intros b1 b2; [reflexivity|].
  simpl. destruct (PathFinder_find_spec fullname [path_str (parent p)]);
    [reflexivity | apply IH].
Qed.

Lemma find_spec_items_binding (fullname : string) (items : list (string * list Path)) :
  forall b1 b2,
  find_spec_items fullname b1 items = find_spec_items fullname b2 items.
Proof.
  induction items as [|[pkg ps] items IH]; intros b1 b2; [reflexivity|].
  simpl. destruct (watches fullname pkg); [|apply IH].
  pose proof (find_spec_paths_binding fullname b1 b2 ps) as H.
  destruct (find_spec_paths fullname b1 ps) as [[s1|] c1],
           (find_spec_paths fullname b2 ps) as [[s2|] c2];
    simpl in H; try discriminate H.
  - exact H.
  - apply IH.
Qed.

(** The inner loop tries the candidate directories in order and returns
    the first spec that the path finder gives for the parent of one. *)
Lemma find_spec_paths_first (fullname : string) (b : path_binding) (ps : list Path) :
  first_spec PathFinder_find_spec fullname ps (fst (find_spec_paths fullname b ps)).
Proof.
  revert b. induction ps as [|p ps IH]; intros b.
  - simpl. intros q [].
  - simpl.
    destruct (PathFinder_find_spec fullname [path_str (parent p)]) as [spec|] eqn:Hp.
    + simpl. exists [], p, ps. repeat split; [intros q [] | exact Hp].
    + specialize (IH (PathLoop p)).
      destruct (fst (find_spec_paths fullname (PathLoop p) ps)) as [spec|]; simpl in *.
      * destruct IH as [pre [p' [post [-> [Hpre Hp']]]]].
        exists (p :: pre), p', post. repeat split; [|exact Hp'].
        intros q [<-|Hq]; [exact Hp | now apply Hpre].
      * intros q [<-|Hq]; [exact Hp | now apply IH].
Qed.

(** A spec is returned only for a name that one of the keys watches. *)
Lemma find_spec_items_watched (fullname : string) (items : list (string * list Path)) :
  forall b spec,
  find_spec_items fullname b items = Some spec ->
  exists pkg ps, In (pkg, ps) items /\ watches fullname pkg = true.
Proof.
  induction items as [|[pkg ps] items IH]; intros b spec; [discriminate|].
  simpl. destruct (watches fullname pkg) eqn:Hw.
  - intros _. exists pkg, ps. split; [now left | exact Hw].
  - intros H. destruct (IH _ _ H) as [pkg' [ps' [Hin Hw']]].
    exists pkg', ps'. split; [now right | exact Hw'].
Qed.

Lemma find_spec_only_watched (self : IsolatedPackageFinder) (fullname : string)
    (path target : pyobj) (spec : ModuleSpec) :
  find_spec self fullname path target = Some spec ->
  exists pkg ps, In (pkg, ps) (package_dirs self) /\
    (fullname = pkg \/ exists sub, fullname = (pkg ++ "." ++ sub)%string).
Proof.
  intros H. destruct (find_spec_items_watched _ _ _ _ H) as [pkg [ps [Hin Hw]]].
  exists pkg, ps. split; [exact Hin | now apply watches_iff].
Qed.

(** The two keys watch disjoint sets of names. *)
Lemma watches_pyside_not_shiboken (fullname : string) :
  watches fullname "PySide6" = true -> watches fullname "shiboken6" = false.
Proof.
  intros H. apply watches_iff in H as [->|[sub ->]]; reflexivity.
Qed.

Lemma find_spec_target_pyside (pyside shiboken : list Path) (fullname : string)
    (path target : pyobj) :
  watches fullname "PySide6" = true ->
  find_spec (target_finder pyside shiboken) fullname path target
  = fst (find_spec_paths fullname (PathArg path) pyside).
Proof.
  intros Hw. unfold find_spec, target_finder. simpl.
  rewrite Hw, (watches_pyside_not_shiboken _ Hw).
  now destruct (find_spec_paths fullname (PathArg path) pyside) as [[s|] b].
Qed.

Lemma find_spec_target_shiboken (pyside shiboken : list Path) (fullname : string)
    (path target : pyobj) :
  watches fullname "shiboken6" = true ->
  find_spec (target_finder pyside shiboken) fullname path target
  = fst (find_spec_paths fullname (PathArg path) shiboken).
Proof.
  intros Hw. unfold find_spec, target_finder. simpl.
  destruct (watches fullname "PySide6") eqn:Hp.
  - rewrite (watches_pyside_not_shiboken _ Hp) in Hw. discriminate.
  - rewrite Hw.
    now destruct (find_spec_paths fullname (PathArg path) shiboken) as [[s|] b].
Qed.

(** C1. The finder of the module returns a spec only for a name that is
    "PySide6" or "shiboken6" or starts with one of them followed by a dot,
    so "PySide6x" gets [None]. For a name that a key watches, the path
    finder is asked with the one-element search path holding the parent of
    each directory resolved for that key, in order; the first spec it gives
    is returned, and [None] when it gives none for every directory. *)
Theorem find_spec_target (pyside shiboken : list Path) (fullname : string)
    (path target : pyobj) :
  let r := find_spec (target_finder pyside shiboken) fullname path target in
  (forall spec, r = Some spec ->
      fullname = "PySide6" \/ (exists sub, fullname = ("PySide6" ++ "." ++ sub)%string) \/
      fullname = "shiboken6" \/ (exists sub, fullname = ("shiboken6" ++ "." ++ sub)%string))
  /\ (fullname = "PySide6" \/ (exists sub, fullname = ("PySide6" ++ "." ++ sub)%string) ->
      first_spec PathFinder_find_spec fullname pyside r)
  /\ (fullname = "shiboken6" \/ (exists sub, fullname = ("shiboken6" ++ "." ++ sub)%string) ->
      first_spec PathFinder_find_spec fullname shiboken r)
  /\ find_spec (target_finder pyside shiboken) "PySide6x" path target = None.
Proof.
  intros r. split; [|split; [|split]].
  - intros spec H. unfold r in H.
    destruct (find_spec_only_watched _ _ _ _ _ H) as [pkg [ps [Hin Hw]]].
    destruct Hin as [[= <- <-]|[[= <- <-]|[]]]; tauto.
  - intros Hw. apply watches_iff in Hw. unfold r.
    rewrite (find_spec_target_pyside _ _ _ _ _ Hw). apply find_spec_paths_first.
  - intros Hw. apply watches_iff in Hw. unfold r.
    rewrite (find_spec_target_shiboken _ _ _ _ _ Hw). apply find_spec_paths_first.
  - reflexivity.
Qed.

(** C10. [find_spec] does not read its [path] and [target] arguments: with
    the same finder and the same name, any two values of them give the
    same result. *)
Theorem find_spec_ignores_path_target (self : IsolatedPackageFinder)
    (fullname : string) (path1 target1 path2 target2 : pyobj) :
  find_spec self fullname path1 target1 = find_spec self fullname path2 target2.
Proof. unfold find_spec. apply find_spec_items_binding. Qed.

End FinderFacts.

(** C2. [find_distributions] yields nothing when no context is given or
    the context has no name. For the name "PySide6" or "shiboken6" it
    yields one distribution, whose metadata directory is the one
    [locate_dist_info_dir] returns for that name, and raises [ImportError]
    when [locate_dist_info_dir] returns [None]. For every other name it
    yields nothing. *)
Theorem find_distributions_target (fs : filesystem) (D : pyobj)
    (pyside shiboken : list Path) :
  let self := target_finder pyside shiboken in
  find_distributions fs D self None = Ok []
  /\ find_distributions fs D self (Some {| context_name := None |}) = Ok []
  /\ (forall n, n = "PySide6" \/ n = "shiboken6" ->
        (forall d, locate_dist_info_dir fs D n = Ok (Some d) ->
           find_distributions fs D self (Some {| context_name := Some n |})
           = Ok [{| pkgname := n; _dist_info := d |}])
        /\ (locate_dist_info_dir fs D n = Ok None ->
           find_distributions fs D self (Some {| context_name := Some n |})
           = Raise (ImportError ("No dist-info found for " ++ n))))
  /\ (forall n, n <> "PySide6" -> n <> "shiboken6" ->
        find_distributions fs D self (Some {| context_name := Some n |}) = Ok []).
Proof.
  intros self. split; [reflexivity|]. split; [reflexivity|]. split.
  - intros n [-> | ->]; split; intros; unfold find_distributions; simpl;
      unfold IsolatedDistribution_init; now rewrite H.
  - intros n H1 H2. unfold find_distributions, dict_contains, self, target_finder.
    cbn [context_name package_dirs existsb fst].
    destruct (n =? ""); [reflexivity|].
    apply not_eq_sym in H1, H2.
    apply String.eqb_neq in H1, H2.
    now rewrite H1, H2.
Qed.

(** The finder that the module installs has the two keys, each with the
    directories [locate_package] returned for it. *)
Lemma module_finder_keys (fs : filesystem) (PACKAGE_DIR : pyobj)
    (self : IsolatedPackageFinder) :
  module_finder fs PACKAGE_DIR = Ok self ->
  exists pyside shiboken,
    locate_package fs PACKAGE_DIR "PySide6" = Ok pyside
    /\ locate_package fs PACKAGE_DIR "shiboken6" = Ok shiboken
    /\ self = target_finder pyside shiboken.
Proof.
  unfold module_finder.
  destruct (locate_package fs PACKAGE_DIR "PySide6") as [pyside|x]; simpl;
    [|discriminate].
  destruct (locate_package fs PACKAGE_DIR "shiboken6") as [shiboken|x]; simpl;
    [|discriminate].
  intros [= <-]. now exists pyside, shiboken.
Qed.

(** ** The module on two sample hosts *)

Module Scenario.

Import Sample.

(** Fedora, Python 3.12: no subprocess, PySide6 found, shiboken6 not. *)
Example fedora_module_init :
  exec no_subprocess (module_init Str.ascii_strip no_literal fedora "fedora" 3 12)
  = {| calls := [];
       outcome := Ok ({| PACKAGE_DIR := fedora_package_dir;
                         DIST_INFO_DIR := fedora_dist_info_dir |},
                      target_finder [pyside_dir] []) |}.
Proof. reflexivity. Qed.

(** Importing PySide6.QtCore is answered from the parent of the package
    directory. *)
Example fedora_import_qtcore :
  find_spec string fedora_path_finder (target_finder [pyside_dir] [])
    "PySide6.QtCore" PyNone PyNone
  = Some "/usr/lib/python3.12/site-packages/PySide6.QtCore".
Proof. reflexivity. Qed.

(** shiboken6 is not installed: the finder declines. *)
Example fedora_import_shiboken :
  find_spec string fedora_path_finder (target_finder [pyside_dir] [])
    "shiboken6" PyNone PyNone
  = None.
Proof. reflexivity. Qed.

(** The metadata of PySide6 is read from the versioned directory. *)
Example fedora_distribution :
  find_distributions fedora fedora_dist_info_dir (target_finder [pyside_dir] [])
    (Some {| context_name := Some "PySide6" |})
  = Ok [pyside_dist].
Proof. reflexivity. Qed.

Example fedora_read_metadata :
  IsolatedDistribution_read_text fedora pyside_dist "METADATA" = Ok (Some "Name: PySide6")
  /\ IsolatedDistribution_read_text fedora pyside_dist "INSTALLER" = Ok None.
Proof. split; reflexivity. Qed.

Example fedora_locate_file :
  IsolatedDistribution_locate_file pyside_dist "PySide6/__init__.py"
  = {| root := "/";
       parts := ["usr"; "lib64"; "python3.12"; "site-packages"; "PySide6"; "__init__.py"] |}.
Proof. reflexivity. Qed.

(** The metadata of shiboken6 is asked for but there is none. *)
Example fedora_distribution_missing :
  find_distributions fedora fedora_dist_info_dir (target_finder [pyside_dir] [])
    (Some {| context_name := Some "shiboken6" |})
  = Raise (ImportError "No dist-info found for shiboken6").
Proof. reflexivity. Qed.

(** The same tree read as an Ubuntu host: the dist-packages root does not
    exist, nothing is found and nothing is raised. *)
Example ubuntu_module_init :
  exec no_subprocess (module_init Str.ascii_strip no_literal fedora "ubuntu" 3 12)
  = {| calls := [];
       outcome := Ok ({| PACKAGE_DIR := py_str_list ["/usr/lib/python3/dist-packages/"];
                         DIST_INFO_DIR := py_str_list ["/usr/lib/python3/dist-packages/"] |},
                      target_finder [] []) |}.
Proof. reflexivity. Qed.

(** Two spellings of one root: the package directory is returned twice. *)
Example duplicate_roots :
  locate_package fedora
    (py_str_list ["/usr/lib/python3.12/site-packages/"; "/usr/lib/python3.12//site-packages"])
    "PySide6"
  = Ok [pyside_dir; pyside_dir].
Proof. reflexivity. Qed.

(** A file written with carriage returns is read with line feeds. *)
Example carriage_returns :
  decode fedora (String "a" (String "013" (String "010" (String "b" (String "013" "")))))
  = Ok (String "a" (String "010" (String "b" (String "010" "")))).
Proof. reflexivity. Qed.

End Scenario.

(** * Further properties *)

(** ** More on the name test and on what [locate_dist_info_dir] returns *)

Module DistInfoMore.

Import StrFacts.
Local Open Scope string_scope.

(** A name that passes the test starts with the package name and ends
    with one of the two suffixes. *)
Lemma dist_info_name_prefix_suffix (X n : string) :
  dist_info_name X n = true ->
  Str.startswith n X = true
  /\ (Str.endswith n ".dist-info" = true \/ Str.endswith n ".egg-info" = true).
Proof.
  unfold dist_info_name. intros H.
  rewrite !orb_true_iff, andb_true_iff, orb_true_iff in H.
  rewrite !String.eqb_eq in H.
  destruct H as [[Hs He] | [-> | ->]].
  - split; [|exact He].
    apply startswith_iff in Hs as [r ->].
    apply (proj2 (startswith_iff _ _)). exists ("-" ++ r).
    now rewrite append_assoc.
  - split.
    + apply (proj2 (startswith_iff _ _)). now exists ".dist-info".
    + left. apply (proj2 (endswith_iff _ _)). now exists X.
  - split.
    + apply (proj2 (startswith_iff _ _)). now exists ".egg-info".
    + right. apply (proj2 (endswith_iff _ _)). now exists X.
Qed.

(** X1. For every package name [X], the test of lines 86-98 accepts a name
    exactly when it is one of the four documented forms or it is [X-info]
    with [X] ending in ".dist" or ".egg". *)
Theorem dist_info_name_exact (X n : string) :
  dist_info_name X n = true <->
  accepted_form X n \/
  (n = X ++ "-info" /\ (Str.endswith X ".dist" = true \/ Str.endswith X ".egg" = true)).
Proof.
  split; [apply DistInfoName.dist_info_name_inv|].
  intros [H | [-> [H | H]]]; [now apply DistInfoName.accepted_form_matches | |];
    apply endswith_iff in H as [pre ->]; unfold dist_info_name;
    apply orb_true_iff; left; apply andb_true_iff; split.
  - apply (proj2 (startswith_iff _ _)). exists "info". now rewrite !append_assoc.
  - apply orb_true_iff. left. apply (proj2 (endswith_iff _ _)). exists pre.
    now rewrite !append_assoc.
  - apply (proj2 (startswith_iff _ _)). exists "info". now rewrite !append_assoc.
  - apply orb_true_iff. right. apply (proj2 (endswith_iff _ _)). exists pre.
    now rewrite !append_assoc.
Qed.

End DistInfoMore.

Section LocateMore.

Variable fs : filesystem.

(** X2. Whatever the metadata roots are (a list, a tuple), a directory
    that [locate_dist_info_dir] returns is a directory, it is a direct
    child of one of the roots, that root is a directory, and its name
    starts with the package name and ends with ".dist-info" or
    ".egg-info". *)
Theorem locate_dist_info_dir_sound (D : pyobj) (X : string) (e : Path) :
  locate_dist_info_dir fs D X = Ok (Some e) ->
  is_dir fs e = Ok true
  /\ Str.startswith (name e) X = true
  /\ (Str.endswith (name e) ".dist-info" = true \/ Str.endswith (name e) ".egg-info" = true)
  /\ exists dirs d, py_iter D = Ok dirs /\ In (PyStr d) dirs
       /\ is_dir fs (mkpath d) = Ok true /\ parent e = mkpath d.
Proof.
  intros H.
  destruct (locate_dist_info_dir_some fs D X e H)
    as [dirs [d [l [HD [Hin [Hex [Hl [He [Hdir Hname]]]]]]]]].
  destruct (DistInfoMore.dist_info_name_prefix_suffix _ _ Hname) as [Hs Hsuf].
  repeat split; try assumption.
  exists dirs, d. repeat split; try assumption.
  - destruct (exists_ok fs _ _ Hex) as [Hst _].
    rewrite (is_dir_quiet fs _ Hst). f_equal.
    apply (iterdir_child fs _ _ _ Hl He).
  - apply (iterdir_child fs _ _ _ Hl He).
Qed.

End LocateMore.

(** On the Fedora sample the metadata directory of PySide6 lies directly
    under the only metadata root. *)
Lemma locate_dist_info_dir_sound_fedora :
  locate_dist_info_dir Sample.fedora Sample.fedora_dist_info_dir "PySide6"
    = Ok (Some Sample.pyside_dist_info)
  /\ is_dir Sample.fedora Sample.pyside_dist_info = Ok true
  /\ parent Sample.pyside_dist_info = mkpath "/usr/lib64/python3.12/site-packages/".
Proof.
  assert (H : locate_dist_info_dir Sample.fedora Sample.fedora_dist_info_dir "PySide6"
              = Ok (Some Sample.pyside_dist_info)) by reflexivity.
  split; [exact H|].
  destruct (locate_dist_info_dir_sound Sample.fedora _ _ _ H) as [Hd _].
  split; [exact Hd | reflexivity].
Defined.

(** ** More on [find_spec] *)

Section FindSpecMore.

Variable ModuleSpec : Type.

Lemma first_some_app {A : Type} (l1 l2 : list (option A)) :
  first_some (l1 ++ l2) =
  match first_some l1 with Some a => Some a | None => first_some l2 end.
Proof.
  induction l1 as [|[a|] l1 IH]; [reflexivity | reflexivity | exact IH].
Qed.

Lemma find_spec_paths_first_some (PF : string -> list string -> option ModuleSpec)
    (fullname : string) (ps : list Path) :
  forall b,
  fst (find_spec_paths ModuleSpec PF fullname b ps)
  = first_some (map (query PF fullname) ps).
Proof.
  induction ps as [|p ps IH]; intros b; [reflexivity|].
  simpl. unfold query at 1.
  destruct (PF fullname [path_str (parent p)]); [reflexivity | apply IH].
Qed.

Lemma find_spec_items_first_some (PF : string -> list string -> option ModuleSpec)
    (fullname : string) (items : list (string * list Path)) :
  forall b,
  find_spec_items ModuleSpec PF fullname b items
  = first_some (map (query PF fullname)
      (flat_map snd (filter (fun kv => watches fullname (fst kv)) items))).
Proof.
  induction items as [|[pkg ps] items IH]; intros b; [reflexivity|].
  simpl. destruct (watches fullname pkg); [|apply IH].
  simpl. rewrite map_app, first_some_app.
  rewrite <- (find_spec_paths_first_some PF fullname ps b).
  destruct (find_spec_paths ModuleSpec PF fullname b ps) as [[spec|] b'];
    [reflexivity | apply IH].
Qed.

(** No key watches the name: nothing is asked and [None] is returned. *)
Lemma find_spec_items_unwatched (PF : string -> list string -> option ModuleSpec)
    (fullname : string) (items : list (string * list Path)) (b : path_binding) :
  (forall pkg ps, In (pkg, ps) items -> watches fullname pkg = false) ->
  find_spec_items ModuleSpec PF fullname b items = None.
Proof.
  induction items as [|[pkg ps] items IH]; intros Hno; [reflexivity|].
  simpl. rewrite (Hno pkg ps (or_introl eq_refl)).
  apply IH. intros pkg' ps' Hin. apply (Hno pkg' ps'). now right.
Qed.

(** X3. For any dictionary, [find_spec] returns the first spec that the
    path finder gives when asked, with the full name and the parent of the
    directory as only search path, for the directories of all keys that
    watch the name, key after key in dictionary order: when the
    directories of one watching key give nothing, the next watching key is
    tried. In particular the result is [None] when no key watches the
    name. *)
Theorem find_spec_all_candidates (PF : string -> list string -> option ModuleSpec)
    (self : IsolatedPackageFinder) (fullname : string) (path target : pyobj) :
  find_spec ModuleSpec PF self fullname path target
  = first_some (map (fun p => PF fullname [path_str (parent p)])
                    (candidates self fullname))
  /\ ((forall pkg ps, In (pkg, ps) (package_dirs self) -> watches fullname pkg = false) ->
      find_spec ModuleSpec PF self fullname path target = None).
Proof.
  assert (H : find_spec ModuleSpec PF self fullname path target
              = first_some (map (fun p => PF fullname [path_str (parent p)])
                                (candidates self fullname)))
    by apply find_spec_items_first_some.
  split; [exact H|].
  intros Hno. now apply find_spec_items_unwatched.
Qed.

(** X4. The result of [find_spec] depends on the path finder only through
    its answers for the full name and the parents of the candidate
    directories: two path finders that agree on these queries give the
    same result, however they differ on other names or search paths. *)
Theorem find_spec_queries_only (PF1 PF2 : string -> list string -> option ModuleSpec)
    (self : IsolatedPackageFinder) (fullname : string) (path target : pyobj) :
  (forall p, In p (candidates self fullname) ->
     PF1 fullname [path_str (parent p)] = PF2 fullname [path_str (parent p)]) ->
  find_spec ModuleSpec PF1 self fullname path target
  = find_spec ModuleSpec PF2 self fullname path target.
Proof.
  intros Hagree. unfold find_spec.
  rewrite !find_spec_items_first_some. f_equal.
  apply map_ext_in. exact Hagree.
Qed.

(** X5. Name boundary for the two keys of the module: a name that
    continues "PySide6" or "shiboken6" with any character other than a dot
    is declined, whatever the directories and the path finder. *)
Theorem find_spec_key_boundary (PF : string -> list string -> option ModuleSpec)
    (pyside shiboken : list Path) (c : ascii) (rest : string) (path target : pyobj) :
  c <> "."%char ->
  find_spec ModuleSpec PF (target_finder pyside shiboken)
    ("PySide6" ++ String c rest) path target = None
  /\ find_spec ModuleSpec PF (target_finder pyside shiboken)
       ("shiboken6" ++ String c rest) path target = None.
Proof.
  intros Hc.
  assert (Hext : forall pkg, watches (pkg ++ String c rest) pkg = false).
  { intros pkg. destruct (watches (pkg ++ String c rest) pkg) eqn:E; [|reflexivity].
    exfalso. apply watches_iff in E as [E | [sub E]].
    - apply (f_equal String.length) in E.
      rewrite StrFacts.length_append in E. simpl in E. lia.
    - apply StrFacts.append_inv_head in E. injection E as E _. now apply Hc. }
  split; apply find_spec_items_unwatched.
  - intros pkg ps [[= <- <-] | [[= <- <-] | []]]; [apply Hext | reflexivity].
  - intros pkg ps [[= <- <-] | [[= <- <-] | []]]; [reflexivity | apply Hext].
Qed.

End FindSpecMore.

(** Two path finders that differ everywhere but on the Fedora site
    directory give the same spec for PySide6.QtCore. *)
Lemma find_spec_queries_only_fedora :
  Sample.fedora_path_finder "PySide6.QtCore" ["/elsewhere"]
    <> Sample.eager_path_finder "PySide6.QtCore" ["/elsewhere"]
  /\ find_spec string Sample.fedora_path_finder
       (target_finder [Sample.pyside_dir] []) "PySide6.QtCore" PyNone PyNone
     = find_spec string Sample.eager_path_finder
         (target_finder [Sample.pyside_dir] []) "PySide6.QtCore" PyNone PyNone.
Proof.
  split; [discriminate|].
  apply find_spec_queries_only.
  intros p [<-|[]]. reflexivity.
Defined.

(** PySide6_Addons is not PySide6. *)
Lemma find_spec_key_boundary_underscore :
  "_"%char <> "."%char
  /\ find_spec string Sample.eager_path_finder
       (target_finder [Sample.pyside_dir] []) "PySide6_Addons" PyNone PyNone = None.
Proof.
  assert (H : "_"%char <> "."%char) by discriminate.
  split; [exact H|].
  exact (proj1 (find_spec_key_boundary string Sample.eager_path_finder
                  [Sample.pyside_dir] [] "_" "Addons" PyNone PyNone H)).
Defined.

(** ** More on [find_distributions] *)

Section FindDistributionsMore.

Variable fs : filesystem.
Variable DIST_INFO_DIR : pyobj.

Lemma dict_contains_keys {V : Type} (k : string) (d : list (string * V)) :
  dict_contains k d = existsb (fun m => m =? k) (map fst d).
Proof.
  unfold dict_contains. induction d as [|kv d IH]; [reflexivity|].
  simpl. now rewrite IH.
Qed.

(** X6. For any finder: an empty requested name yields nothing even if the
    empty string is a key; at most one distribution is ever yielded, and a
    yielded distribution carries the requested name, which is a key, and
    the directory that [locate_dist_info_dir] returns for it, which is a
    directory; and when [locate_dist_info_dir] raises for a requested key,
    [find_distributions] raises the same exception. *)
Theorem find_distributions_any_finder (self : IsolatedPackageFinder) :
  find_distributions fs DIST_INFO_DIR self (Some {| context_name := Some "" |}) = Ok []
  /\ (forall context l,
        find_distributions fs DIST_INFO_DIR self context = Ok l ->
        length l <= 1
        /\ forall dist, In dist l ->
             context = Some {| context_name := Some (pkgname dist) |}
             /\ dict_contains (pkgname dist) (package_dirs self) = true
             /\ locate_dist_info_dir fs DIST_INFO_DIR (pkgname dist)
                = Ok (Some (_dist_info dist))
             /\ is_dir fs (_dist_info dist) = Ok true)
  /\ (forall n e,
        n <> "" -> dict_contains n (package_dirs self) = true ->
        locate_dist_info_dir fs DIST_INFO_DIR n = Raise e ->
        find_distributions fs DIST_INFO_DIR self (Some {| context_name := Some n |})
        = Raise e).
Proof.
  split; [reflexivity|]. split.
  - intros context l. unfold find_distributions.
    destruct context as [[[n|]]|]; simpl;
      try (intros [= <-]; split; [simpl; lia | intros dist []]).
    destruct (n =? ""); [intros [= <-]; split; [simpl; lia | intros dist []]|].
    destruct (dict_contains n (package_dirs self)) eqn:Hk;
      [|intros [= <-]; split; [simpl; lia | intros dist []]].
    destruct (IsolatedDistribution_init fs DIST_INFO_DIR n) as [d|x] eqn:Hi;
      simpl; [|discriminate].
    intros [= <-]. split; [simpl; lia|].
    intros dist [<-|[]].
    destruct (IsolatedDistribution_init_parts fs _ _ _ Hi) as [Hn [Hl _]].
    rewrite Hn. repeat split; try assumption.
    destruct (locate_dist_info_dir_some fs _ _ _ Hl)
      as [dirs [r [l [_ [_ [_ [_ [_ [Hdir _]]]]]]]]].
    exact Hdir.
  - intros n e Hn Hk Hl. unfold find_distributions. simpl.
    apply String.eqb_neq in Hn. rewrite Hn, Hk.
    unfold IsolatedDistribution_init. now rewrite Hl.
Qed.

(** X7. [find_distributions] reads the keys of the dictionary only: two
    finders with the same keys answer every metadata request alike,
    whatever package directories they hold; metadata is served for a key
    whose package directory was not found. *)
Theorem find_distributions_keys_only (self1 self2 : IsolatedPackageFinder)
    (context : option Context) :
  map fst (package_dirs self1) = map fst (package_dirs self2) ->
  find_distributions fs DIST_INFO_DIR self1 context
  = find_distributions fs DIST_INFO_DIR self2 context.
Proof.
  intros Hkeys. unfold find_distributions.
  destruct (context_name _) as [n|]; [|reflexivity].
  now rewrite !dict_contains_keys, Hkeys.
Qed.

End FindDistributionsMore.

(** The metadata of PySide6 is served by a finder that located no package
    directory at all. *)
Lemma find_distributions_keys_only_fedora :
  map fst (package_dirs (target_finder [] []))
    = map fst (package_dirs (target_finder [Sample.pyside_dir] []))
  /\ find_distributions Sample.fedora Sample.fedora_dist_info_dir (target_finder [] [])
       (Some {| context_name := Some "PySide6" |})
     = Ok [Sample.pyside_dist].
Proof.
  split; [reflexivity|].
  rewrite (find_distributions_keys_only Sample.fedora Sample.fedora_dist_info_dir
             (target_finder [] []) (target_finder [Sample.pyside_dir] []) _ eq_refl).
  reflexivity.
Defined.

(** ** Plain names: what [locate_package] returns and where the finder looks *)

Section PlainNames.

Variable fs : filesystem.









End PlainNames.


Section InstalledFinder.

Variable fs : filesystem.
Variable ModuleSpec : Type.
Variable PF : string -> list string -> option ModuleSpec.




End InstalledFinder.


(** ** Loading the module *)

Section ModuleInit.

Variable subprocess_run : list string -> result CompletedProcess.
Variable strip : string -> string.
Variable literal_eval : string -> result pyobj.
Variable fs : filesystem.

Local Abbreviation layout := (resolve_layout strip literal_eval).
Local Abbreviation init := (module_init strip literal_eval fs).
Local Abbreviation site := (exec subprocess_run (get_system_site strip literal_eval)).


(** Execution of a sequence: the calls of the first part, then those of
    the second. *)
Lemma exec_pbind {A B : Type} (p : prog A) (f : A -> prog B) :
  exec subprocess_run (pbind p f)
  = match outcome (exec subprocess_run p) with
    | Ok a => {| calls := calls (exec subprocess_run p) ++ calls (exec subprocess_run (f a));
                 outcome := outcome (exec subprocess_run (f a)) |}
    | Raise e => {| calls := calls (exec subprocess_run p); outcome := Raise e |}
    end.
Proof.
  induction p as [a|e|argv k IH]; simpl.
  - now destruct (exec subprocess_run (f a)).
  - reflexivity.
  - rewrite IH. now destruct (outcome (exec subprocess_run (k (subprocess_run argv)))).
Qed.





(** X12. The package roots and the metadata roots that layout resolution
    returns are the same value, except on "fedora", where they always
    differ (lib against lib64). *)
Theorem resolve_layout_same_roots (distro : string) (major minor : nat)
    (r : SearchRoots) :
  outcome (exec subprocess_run (layout distro major minor)) = Ok r ->
  (distro <> "fedora" -> PACKAGE_DIR r = DIST_INFO_DIR r)
  /\ (distro = "fedora" -> PACKAGE_DIR r <> DIST_INFO_DIR r).
Proof.
  unfold resolve_layout.
  destruct (String.eqb_spec distro "fedora") as [->|Hf].
  - intros [= <-]. split; [congruence|]. intros _. simpl. intros H.
    injection H. discriminate.
  - destruct (distro =? "ubuntu");
      [|destruct (Str.startswith distro "opensuse")].
    + intros [= <-]. split; [reflexivity | contradiction].
    + intros [= <-]. split; [reflexivity | contradiction].
    + rewrite exec_pbind.
      destruct (outcome site) as [v|e]; cbn; [|discriminate].
      intros [= <-]. split; [reflexivity | contradiction].
Qed.

End ModuleInit.



(** Fedora 3.12: the two root lists differ. *)
Lemma resolve_layout_same_roots_fedora :
  outcome (exec Sample.no_subprocess
             (resolve_layout Str.ascii_strip Sample.no_literal "fedora" 3 12))
    = Ok {| PACKAGE_DIR := Sample.fedora_package_dir;
            DIST_INFO_DIR := Sample.fedora_dist_info_dir |}
  /\ Sample.fedora_package_dir <> Sample.fedora_dist_info_dir.
Proof.
  assert (H : outcome (exec Sample.no_subprocess
                         (resolve_layout Str.ascii_strip Sample.no_literal "fedora" 3 12))
              = Ok {| PACKAGE_DIR := Sample.fedora_package_dir;
                      DIST_INFO_DIR := Sample.fedora_dist_info_dir |}) by reflexivity.
  split; [exact H|].
  exact (proj2 (resolve_layout_same_roots Sample.no_subprocess Str.ascii_strip
                  Sample.no_literal "fedora" 3 12 _ H) eq_refl).
Defined.

(** ** Roots that are not strings *)

Section TypeErrors.

Variable fs : filesystem.



End TypeErrors.

(** ** Absolute arguments *)

Section ReadMore.

Variable fs : filesystem.

(** X16. An absolute argument leaves the metadata directory: for a path
    that starts with a slash, [locate_file] returns that path itself, and
    [read_text] reads the file at that path, whatever the distribution. *)
Theorem isolated_distribution_absolute (self other : IsolatedDistribution)
    (path : string) :
  root (mkpath path) <> "" ->
  IsolatedDistribution_locate_file self path = mkpath path
  /\ IsolatedDistribution_read_text fs self path
     = IsolatedDistribution_read_text fs other path
  /\ (forall t, exists_ fs (mkpath path) = Ok true ->
        read_text fs (mkpath path) = Ok t ->
        IsolatedDistribution_read_text fs self path = Ok (Some t)).
Proof.
  intros Hroot. apply String.eqb_neq in Hroot.
  unfold IsolatedDistribution_locate_file, IsolatedDistribution_read_text,
    truediv, joinpath.
  rewrite Hroot. repeat split.
  intros t He Ht. rewrite He. simpl. now rewrite Ht.
Qed.

End ReadMore.

(** The README next to the metadata directory is read through an absolute
    name. *)
Lemma isolated_distribution_absolute_fedora :
  root (mkpath "/usr/lib64/python3.12/site-packages/README") <> ""
  /\ IsolatedDistribution_read_text Sample.fedora Sample.pyside_dist
       "/usr/lib64/python3.12/site-packages/README"
     = Ok (Some "notes").
Proof.
  assert (H : root (mkpath "/usr/lib64/python3.12/site-packages/README") <> "")
    by discriminate.
  split; [exact H|].
  exact (proj2 (proj2 (isolated_distribution_absolute Sample.fedora
                         Sample.pyside_dist Sample.pyside_dist _ H)) _ eq_refl eq_refl).
Defined.

(** ** Which exceptions the lookups raise *)

Section Exceptions.

Variable fs : filesystem.

Lemma exists_raises (p : Path) (e : exn) :
  exists_ fs p = Raise e -> stat_error fs p = Some e.
Proof. unfold exists_. destruct (stat_error fs p); [now intros [= ->] | discriminate]. Qed.






(** X18. [find_distributions] raises only for a requested name that is
    not empty and is a key: [ImportError] with the message "No dist-info
    found for <name>" when [locate_dist_info_dir] returns [None] for it,
    and otherwise the exception that [locate_dist_info_dir] raises. A
    request without a name, or for a name that is not a key, never
    raises. *)
Theorem find_distributions_raises (D : pyobj) (self : IsolatedPackageFinder)
    (context : option Context) (e : exn) :
  find_distributions fs D self context = Raise e ->
  exists n,
    context = Some {| context_name := Some n |}
    /\ n <> "" /\ dict_contains n (package_dirs self) = true
    /\ ((e = ImportError ("No dist-info found for " ++ n)
         /\ locate_dist_info_dir fs D n = Ok None)
        \/ locate_dist_info_dir fs D n = Raise e).
Proof.
  unfold find_distributions.
  destruct context as [[[n|]]|]; simpl; try discriminate.
  destruct (String.eqb_spec n "") as [|Hn]; [discriminate|].
  destruct (dict_contains n (package_dirs self)) eqn:Hk; [|discriminate].
  unfold IsolatedDistribution_init.
  destruct (locate_dist_info_dir fs D n) as [[d|]|x] eqn:Hl; simpl; try discriminate.
  - intros [= <-]. exists n. repeat split; auto.
  - intros [= <-]. exists n. repeat split; auto.
Qed.

(** X19. [read_text] raises in these cases only: the OS error of the
    [stat] behind [exists()]; and, when the path exists, the OS error of
    opening it, [IsADirectoryError] when it is a directory, or the error
    of decoding its bytes. In particular the empty file name, which names
    the metadata directory itself, raises [IsADirectoryError] when that
    directory can be examined and opened. *)
Theorem read_text_raises (self : IsolatedDistribution) :
  (forall filename e,
      IsolatedDistribution_read_text fs self filename = Raise e ->
      stat_error fs (_dist_info self / filename)%path = Some e
      \/ (exists_ fs (_dist_info self / filename)%path = Ok true
          /\ (open_error fs (_dist_info self / filename)%path = Some e
              \/ (e = IsADirectoryError
                  /\ tree_is_dir fs (_dist_info self / filename)%path = true)
              \/ exists data,
                   resolve fs (_dist_info self / filename)%path = Some (File data)
                   /\ decode fs data = Raise e)))
  /\ (is_dir fs (_dist_info self) = Ok true ->
      open_error fs (_dist_info self) = None ->
      IsolatedDistribution_read_text fs self "" = Raise IsADirectoryError).
Proof.
  split.
  - intros filename e. unfold IsolatedDistribution_read_text.
    generalize (_dist_info self / filename)%path. intros file.
    destruct (exists_ fs file) as [[|]|x] eqn:Hex; simpl.
    + intros H. right. split; [reflexivity|].
      unfold read_text in H. destruct (open_error fs file) as [x|].
      * simpl in H. left. congruence.
      * right. destruct (resolve fs file) as [[data|es]|] eqn:Hr.
        -- right. exists data. split; [reflexivity|].
           destruct (decode fs data); simpl in H; [discriminate | congruence].
        -- left. simpl in H. split; [congruence|].
           unfold tree_is_dir. now rewrite Hr.
        -- exfalso. destruct (exists_ok fs _ _ Hex) as [_ Ht].
           unfold tree_exists in Ht. rewrite Hr in Ht. discriminate Ht.
    + discriminate.
    + intros [= <-]. left. now apply exists_raises.
  - intros Hd Ho.
    assert (E : (_dist_info self / "")%path = _dist_info self).
    { unfold truediv, joinpath. simpl. rewrite app_nil_r. now destruct (_dist_info self). }
    unfold IsolatedDistribution_read_text. rewrite E.
    destruct (is_dir_ok fs _ _ Hd) as [Hs Ht].
    rewrite (exists_quiet fs _ Hs), (tree_is_dir_exists fs _ (eq_sym Ht)). simpl.
    unfold read_text. rewrite Ho. unfold tree_is_dir in Ht.
    now destruct (resolve fs (_dist_info self)) as [[|]|].
Qed.

End Exceptions.


(** shiboken6 has no metadata on the Fedora sample. *)
Lemma find_distributions_raises_shiboken :
  find_distributions Sample.fedora Sample.fedora_dist_info_dir
    (target_finder [Sample.pyside_dir] []) (Some {| context_name := Some "shiboken6" |})
    = Raise (ImportError "No dist-info found for shiboken6")
  /\ locate_dist_info_dir Sample.fedora Sample.fedora_dist_info_dir "shiboken6" = Ok None.
Proof.
  assert (H : find_distributions Sample.fedora Sample.fedora_dist_info_dir
                (target_finder [Sample.pyside_dir] [])
                (Some {| context_name := Some "shiboken6" |})
              = Raise (ImportError "No dist-info found for shiboken6")) by reflexivity.
  split; [exact H|].
  destruct (find_distributions_raises Sample.fedora _ _ _ _ H)
    as [n [Hc [_ [_ [[_ Hl]|Hl]]]]]; injection Hc as <-; [exact Hl | discriminate Hl].
Defined.
